(** * mc-manager: the installed-content ledger and its operations

    A shallow embedding of [mc-manager.py]: the registry client
    ([ModrinthAPI]) and the content manager ([MinecraftManager]) with its
    three-bucket ledger.

    Modelling conventions.
    - Python [str] is [string], a text in UTF-8: [in] between two texts
      is the search of one byte sequence in the other, which for UTF-8
      finds the occurrences the search by code points finds; a slice
      [s[:n]] counts bytes, which are the code points of a text of code
      points below 128; [str.lower] is the environment's.
    - A Python [dict] is an association list in insertion order: the order
      of [items()] decides which entry a numeric selection picks and in
      which order [update] walks the entries.
    - Everything the program gets from outside is the environment [Env]:
      the answers of the registry, [str.lower], [pathlib] (how a path and
      a name are joined and how two paths are compared, which depends on
      the platform), the operating system (which file a path leads to,
      whether [os.remove] fails) and [json]. Every operation takes the
      environment as a parameter.
    - [self] is the record [State]: the in-memory ledger, the files that
      exist with their contents (the configuration file is one of them),
      and the trace of everything the run printed or attempted.
    - Registry answers are typed records, so a missing key cannot occur.
      Of the exceptions the program does not catch, those of [json.load]
      are modelled ([Propagated]); the others ([OSError] of [open], a
      missing key, an interrupt at the prompt) are outside the model. *)

From Stdlib Require Import List String Ascii Bool Arith ZArith Lia.
Import ListNotations.

Local Open Scope string_scope.
Local Open Scope list_scope.

(** ** Content types *)

Inductive ContentType : Type :=
| MOD
| RESOURCE_PACK
| SHADER_PACK.

(** [ContentType.value] *)
Definition value (ct : ContentType) : string :=
  match ct with
  | MOD => "mod"
  | RESOURCE_PACK => "resourcepack"
  | SHADER_PACK => "shader"
  end.

(** [for ct in ContentType] walks the members in definition order. *)
Definition all_content_types : list ContentType :=
  [MOD; RESOURCE_PACK; SHADER_PACK].

Definition ContentType_eq_dec (a b : ContentType) : {a = b} + {a <> b}.
Proof. decide equality. Defined.

(** ** Strings *)

Module Str.

(** Truthiness of a Python string: non-empty. *)
Definition truthy (s : string) : bool :=
  match s with
  | EmptyString => false
  | String _ _ => true
  end.

Definition lower_ascii (c : ascii) : ascii :=
  let n := nat_of_ascii c in
  if ((65 <=? n)%nat && (n <=? 90)%nat)%bool then ascii_of_nat (n + 32) else c.

(** What [s.lower()] gives for a text with only code points below 128:
    the letters A to Z become a to z and nothing else changes. On other
    texts [str.lower] is the environment's; this function leaves their
    other bytes alone. *)
Fixpoint lower (s : string) : string :=
  match s with
  | EmptyString => EmptyString
  | String c s' => String (lower_ascii c) (lower s')
  end.

(** [hay.startswith(needle)] *)
Fixpoint starts_with (needle hay : string) : bool :=
  match needle, hay with
  | EmptyString, _ => true
  | String _ _, EmptyString => false
  | String a n', String b h' => Ascii.eqb a b && starts_with n' h'
  end.

(** [needle in hay] *)
Fixpoint contains (needle hay : string) : bool :=
  starts_with needle hay
  || match hay with
     | EmptyString => false
     | String _ h' => contains needle h'
     end.

(** The property [contains] decides. *)
Definition substring_of (needle hay : string) : Prop :=
  exists pre post : string, hay = (pre ++ needle ++ post)%string.


(** The text has only code points below 128. *)
Fixpoint is_ascii (s : string) : bool :=
  match s with
  | EmptyString => true
  | String c s' => (nat_of_ascii c <? 128)%nat && is_ascii s'
  end.

End Str.

(** ** Registry answers *)

(** A file descriptor of a version; [primary] is read with [.get], so the
    key may be absent ([None]). *)
Record File : Type := mkFile {
  file_url : string;
  file_filename : string;
  file_primary : option bool
}.

Record Version : Type := mkVersion {
  version_number : string;
  date_published : string;
  files : list File
}.

Record Project : Type := mkProject {
  title : string
}.

(** The outcome of a [requests] call: a body, or a [RequestException]. *)
Inductive Response (A : Type) : Type :=
| Ok (body : A)
| RequestException (e : string).
Arguments Ok {A} body.
Arguments RequestException {A} e.

(** ** ModrinthAPI.search: the request parameters *)

Module ModrinthAPI.

Record SearchParams : Type := mkSearchParams {
  param_query : string;
  param_limit : Z;
  param_facets : option (list (list string))
}.

(** The first [if/elif] chain of [search]: it leaves a pair
    (project_type, facets); [facets] is unbound ([None]) unless the
    shader branch assigned it. *)
Definition map_project_type (content_type : ContentType)
  : option string * option (list (list string)) :=
  match content_type with
  | MOD => (Some "mod", None)
  | RESOURCE_PACK => (Some "resourcepack", None)
  | SHADER_PACK => (None, Some [["project_type:shader"]])
  end.

(** [facets = []] and the two [append]s that follow the chain. The
    assignment rebinds [facets] whatever the chain left in it. *)
Definition build_facets (content_type : ContentType)
    (game_versions : option (list string)) : list (list string) :=
  let '(project_type, _) := map_project_type content_type in
  let facets : list (list string) := [] in
  let facets :=
    match project_type with
    | Some pt => if Str.truthy pt then facets ++ [["project_type:" ++ pt]%string]
                 else facets
    | None => facets
    end in
  let facets :=
    match game_versions with
    | Some (v :: vs) =>
        facets ++ [map (fun v => "versions:" ++ v)%string (v :: vs)]
    | _ => facets
    end in
  facets.

(** [params] of the request. [json.dumps] is injective and is left out:
    the facet list itself stands for its serialisation. *)
Definition search_params (query : string) (content_type : ContentType)
    (game_versions : option (list string)) (limit : Z) : SearchParams :=
  let facets := build_facets content_type game_versions in
  {| param_query := query;
     param_limit := limit;
     param_facets := match facets with [] => None | _ => Some facets end |}.

(** The facet that identifies a category on the registry. *)
Definition project_type_facet (content_type : ContentType) : list string :=
  [("project_type:" ++ value content_type)%string].

(** The facets a request carries ([None] sends no [facets] parameter). *)
Definition sent_facets (p : SearchParams) : list (list string) :=
  match param_facets p with
  | Some fs => fs
  | None => []
  end.

End ModrinthAPI.

(** ** Primary-file selection *)

(** Truthiness of [f.get("primary")]. *)
Definition is_primary (f : File) : bool :=
  match file_primary f with
  | Some b => b
  | None => false
  end.

(** [next((x for x in xs if p(x)), default)] *)
Fixpoint next_or {A : Type} (p : A -> bool) (xs : list A) (default : A) : A :=
  match xs with
  | [] => default
  | x :: xs' => if p x then x else next_or p xs' default
  end.

(** [next((f for f in files if f.get("primary")), files[0])], for a
    non-empty [files] (both callers return before it when [files] is
    empty); [None] stands for the [IndexError] of [files[0]]. *)
Definition primary_file (fs : list File) : option File :=
  match fs with
  | [] => None
  | f0 :: _ => Some (next_or is_primary fs f0)
  end.

(** ** The ledger *)

Record Entry : Type := mkEntry {
  name : string;
  version : string;
  filename : string;
  installed_at : string
}.

(** A Python [dict] keyed by project id, in insertion order. *)
Module Dict.

Definition t (V : Type) : Type := list (string * V).

(** [d[k] = v]: an existing key keeps its place, a new key goes last. *)
Fixpoint setitem {V : Type} (k : string) (v : V) (d : t V) : t V :=
  match d with
  | [] => [(k, v)]
  | (k', v') :: d' =>
      if String.eqb k' k then (k, v) :: d' else (k', v') :: setitem k v d'
  end.

(** [del d[k]] *)
Fixpoint delitem {V : Type} (k : string) (d : t V) : t V :=
  match d with
  | [] => []
  | (k', v') :: d' =>
      if String.eqb k' k then d' else (k', v') :: delitem k d'
  end.

(** [d.get(k)] *)
Fixpoint get {V : Type} (k : string) (d : t V) : option V :=
  match d with
  | [] => None
  | (k', v') :: d' => if String.eqb k' k then Some v' else get k d'
  end.

(** [d.items()] *)
Definition items {V : Type} (d : t V) : list (string * V) := d.

End Dict.

Definition Bucket : Type := Dict.t Entry.

Record Ledger : Type := mkLedger {
  mods : Bucket;
  resourcepacks : Bucket;
  shaderpacks : Bucket
}.

(** The default structure of [_load_installed_content]. *)
Definition empty_ledger : Ledger :=
  {| mods := []; resourcepacks := []; shaderpacks := [] |}.
(** ** Paths and files *)

(** A [pathlib.Path], as [str] shows it. How paths are joined, compared
    and resolved depends on the platform; the environment says
    ([path_join], [path_key], [locate]). *)
Definition Path : Type := string.

(** A file as the operating system names it once a path is resolved
    ([..], links, letter case): two paths with the same location are the
    same file. *)
Definition Loc : Type := string.

(** The regular files that exist, by location, with their contents. The
    directories are no entries: [__init__] creates the three content
    directories, and a path that leads to a directory is outside the
    model. *)
Module FS.

Definition t : Type := list (Loc * string).

Fixpoint read (l : Loc) (fs : t) : option string :=
  match fs with
  | [] => None
  | (k, c) :: fs' => if String.eqb k l then Some c else read l fs'
  end.

Definition exists_ (l : Loc) (fs : t) : bool :=
  match read l fs with
  | Some _ => true
  | None => false
  end.

Definition remove (l : Loc) (fs : t) : t :=
  filter (fun kc => negb (String.eqb (fst kc) l)) fs.

(** Creates the file or replaces its contents. *)
Definition write (l : Loc) (c : string) (fs : t) : t :=
  (l, c) :: remove l fs.

End FS.

(** ** What a run prints and attempts *)

Inductive Msg : Type :=
| ErrorFetchingProject (e : string)
| ErrorFetchingVersions (e : string)
| ErrorDownloadingFile (e : string)
| WarningConfigCorrupted
| ProjectNotFound
| Installing (title : string)
| NoCompatibleVersions
| NoFilesAvailable
| Downloading (filename : string)
| SuccessfullyInstalled (title : string) (destination : Path)
| FailedToInstall (title : string)
| NoMatchingFound (content_type : ContentType) (name_query : string)
| MultipleMatchesFound
| MatchLine (i : nat) (name version : string)
| InvalidSelection
| Removed (name : string) (file_path : Path)
| ErrorRemovingFile (e : string)
| NoneInstalledToUpdate (content_type : ContentType)
| CheckingForUpdates (count : nat) (content_type : ContentType)
| Checking (name : string)
| NoVersionsFound
| AlreadyUpToDate (version : string)
| UpdateAvailable (old_version new_version : string)
| WarningCouldNotRemoveOldFile (old_path : Path)
| UpdatedSuccessfully
| UpdateFailed.

Inductive Event : Type :=
| EPrint (m : Msg)
| EDownload (url : string) (destination : Path)
| ERemove (p : Path)
| EWriteConfig (content : string).

(** ** The environment *)

(** What streaming a download does: it completes with the body, or a
    [RequestException] interrupts it, before the destination was opened
    ([None]) or after it was opened and [written] was put in it. *)
Inductive Download : Type :=
| Downloaded (body : string)
| DownloadFailed (e : string) (written : option string).

(** What [json.load] returns: a value of the shape of the ledger, or valid
    JSON of another shape. *)
Inductive Loaded : Type :=
| LedgerValue (l : Ledger)
| OtherValue.

(** What [json.load] does with the text of the configuration file: it
    returns a value, or raises [JSONDecodeError], or raises something else
    ([UnicodeDecodeError] while reading, [RecursionError]). *)
Inductive JsonLoad : Type :=
| Parsed (v : Loaded)
| JSONDecodeError
| Propagated (exn : string).

Record Env : Type := mkEnv {
  minecraft_path : Path;
  (** [pathlib]'s [/]: the path of [name] under a directory. It
      normalises [name], and an absolute [name] replaces the directory. *)
  path_join : Path -> string -> Path;
  (** What [==] and [!=] compare two paths by: the path itself on POSIX,
      its lower-case form on Windows. *)
  path_key : Path -> string;
  (** The file the operating system reaches through a path. *)
  locate : Path -> Loc;
  (** [str.lower] *)
  str_lower : string -> string;
  http_project : string -> Response Project;
  http_versions : string -> option string -> Response (list Version);
  http_download : string -> Download;
  (** [os.remove]: [Some e] is the [OSError] it raises. *)
  os_remove : Path -> option string;
  json_load : string -> JsonLoad;
  json_dump : Ledger -> string
}.

(** ** The manager's state and its monad *)

Record State : Type := mkState {
  installed_content : Ledger;
  disk : FS.t;
  trace : list Event
}.

Definition M (A : Type) : Type := State -> A * State.

Definition ret {A : Type} (x : A) : M A := fun s => (x, s).

Definition bind {A B : Type} (m : M A) (k : A -> M B) : M B :=
  fun s => let (x, s') := m s in k x s'.

Declare Scope m_scope.
Delimit Scope m_scope with M.
Notation "x <- m ;; k" := (bind m (fun x => k))
  (at level 61, m at next level, right associativity) : m_scope.
Notation "m ;; k" := (bind m (fun _ => k))
  (at level 61, right associativity) : m_scope.
Local Open Scope m_scope.

Definition exec {A : Type} (m : M A) (s : State) : State := snd (m s).

Definition emit (e : Event) : M unit :=
  fun s => (tt, {| installed_content := installed_content s;
                   disk := disk s;
                   trace := trace s ++ [e] |}).

Definition print (m : Msg) : M unit := emit (EPrint m).

Definition get_installed_content : M Ledger :=
  fun s => (installed_content s, s).

Definition set_installed_content (l : Ledger) : M unit :=
  fun s => (tt, {| installed_content := l;
                   disk := disk s;
                   trace := trace s |}).

Definition read_file (l : Loc) : M (option string) :=
  fun s => (FS.read l (disk s), s).

Definition file_exists (l : Loc) : M bool :=
  fun s => (FS.exists_ l (disk s), s).

Definition write_file (l : Loc) (c : string) : M unit :=
  fun s => (tt, {| installed_content := installed_content s;
                   disk := FS.write l c (disk s);
                   trace := trace s |}).

Definition remove_file (l : Loc) : M unit :=
  fun s => (tt, {| installed_content := installed_content s;
                   disk := FS.remove l (disk s);
                   trace := trace s |}).

(** [for x in xs: body(x)] *)
Fixpoint for_each {A : Type} (body : A -> M unit) (xs : list A) : M unit :=
  match xs with
  | [] => ret tt
  | x :: xs' => body x ;; for_each body xs'
  end.

(** [enumerate(xs, start)] *)
Fixpoint enumerate {A : Type} (xs : list A) (start : nat) : list (nat * A) :=
  match xs with
  | [] => []
  | x :: xs' => (start, x) :: enumerate xs' (S start)
  end.

(** What a call gives: a value, or an exception that nothing catches. *)
Inductive Outcome (A : Type) : Type :=
| Returns (a : A)
| Raises (exn : string).
Arguments Returns {A} a.
Arguments Raises {A} exn.

(** How [__init__] ends: with a ledger in memory, with a value in memory
    that is not a ledger (the operations are not modelled on it), or with
    an exception. *)
Inductive Start : Type :=
| Ready
| Misshaped
| Crashed (exn : string).

(** ** The registry client, over the environment *)

Section Client.

Variable env : Env.

(** [ModrinthAPI.get_project]; the empty dict it returns on failure is
    [None]. *)
Definition get_project (project_id : string) : M (option Project) :=
  match http_project env project_id with
  | Ok p => ret (Some p)
  | RequestException e => print (ErrorFetchingProject e) ;; ret None
  end.

(** [params] of [get_versions]: the filter is sent only when
    [game_version] is truthy. *)
Definition versions_params (game_version : option string) : option string :=
  match game_version with
  | Some g => if Str.truthy g then Some g else None
  | None => None
  end.

(** [ModrinthAPI.get_versions] *)
Definition get_versions (project_id : string) (game_version : option string)
  : M (list Version) :=
  match http_versions env project_id (versions_params game_version) with
  | Ok vs => ret vs
  | RequestException e => print (ErrorFetchingVersions e) ;; ret []
  end.

(** [ModrinthAPI.download_file]: [open(destination, 'wb')] creates or
    empties whatever file the destination leads to. *)
Definition download_file (url : string) (destination : Path) : M bool :=
  emit (EDownload url destination) ;;
  match http_download env url with
  | Downloaded body =>
      write_file (locate env destination) body ;;
      ret true
  | DownloadFailed e written =>
      match written with
      | Some bytes => write_file (locate env destination) bytes
      | None => ret tt
      end ;;
      print (ErrorDownloadingFile e) ;;
      ret false
  end.

End Client.

(** ** MinecraftManager *)

Section MinecraftManager.

Variable env : Env.

Definition mods_path : Path := path_join env (minecraft_path env) "mods".
Definition resourcepacks_path : Path :=
  path_join env (minecraft_path env) "resourcepacks".
Definition shaderpacks_path : Path :=
  path_join env (minecraft_path env) "shaderpacks".

Definition config_path : Path :=
  path_join env (minecraft_path env) "minecraft_manager_config.json".

(** The configuration file. *)
Definition config_loc : Loc := locate env config_path.

Definition _load_installed_content : M (Outcome Loaded) :=
  c <- read_file config_loc ;;
  match c with
  | Some content =>
      match json_load env content with
      | Parsed v => ret (Returns v)
      | JSONDecodeError =>
          print WarningConfigCorrupted ;;
          ret (Returns (LedgerValue empty_ledger))
      | Propagated exn => ret (Raises exn)
      end
  | None => ret (Returns (LedgerValue empty_ledger))
  end.

(** The part of [__init__] that touches the ledger. *)
Definition init : M Start :=
  r <- _load_installed_content ;;
  match r with
  | Returns (LedgerValue l) => set_installed_content l ;; ret Ready
  | Returns OtherValue => ret Misshaped
  | Raises exn => ret (Crashed exn)
  end.

Definition _save_installed_content : M unit :=
  l <- get_installed_content ;;
  emit (EWriteConfig (json_dump env l)) ;;
  write_file config_loc (json_dump env l).

Definition get_content_path (content_type : ContentType) : Path :=
  match content_type with
  | MOD => mods_path
  | RESOURCE_PACK => resourcepacks_path
  | SHADER_PACK => shaderpacks_path
  end.

(** [get_content_dict] returns the bucket itself, not a copy; reading it
    is [get_content_dict], and a mutation made through the returned
    reference is [set_content_dict] on the same key. *)
Definition get_content_dict (content_type : ContentType) (l : Ledger) : Bucket :=
  match content_type with
  | MOD => mods l
  | RESOURCE_PACK => resourcepacks l
  | SHADER_PACK => shaderpacks l
  end.

Definition set_content_dict (content_type : ContentType) (b : Bucket)
    (l : Ledger) : Ledger :=
  match content_type with
  | MOD =>
      {| mods := b; resourcepacks := resourcepacks l;
         shaderpacks := shaderpacks l |}
  | RESOURCE_PACK =>
      {| mods := mods l; resourcepacks := b; shaderpacks := shaderpacks l |}
  | SHADER_PACK =>
      {| mods := mods l; resourcepacks := resourcepacks l; shaderpacks := b |}
  end.

Definition content_dict (content_type : ContentType) : M Bucket :=
  l <- get_installed_content ;;
  ret (get_content_dict content_type l).

(** [content_dict[project_id] = entry] *)
Definition content_dict_setitem (content_type : ContentType)
    (project_id : string) (e : Entry) : M unit :=
  l <- get_installed_content ;;
  set_installed_content
    (set_content_dict content_type
       (Dict.setitem project_id e (get_content_dict content_type l)) l).

(** [del content_dict[project_id]] *)
Definition content_dict_delitem (content_type : ContentType)
    (project_id : string) : M unit :=
  l <- get_installed_content ;;
  set_installed_content
    (set_content_dict content_type
       (Dict.delitem project_id (get_content_dict content_type l)) l).

(** [name_query.lower() in info["name"].lower()] *)
Definition name_matches (name_query : string) (info : Entry) : bool :=
  Str.contains (str_lower env name_query) (str_lower env (name info)).

(** [[(pid, info) for pid, info in content_dict.items() if ...]] *)
Definition find_matches (name_query : string) (b : Bucket)
  : list (string * Entry) :=
  filter (fun item => name_matches name_query (snd item)) (Dict.items b).

Definition install (project_id : string) (content_type : ContentType)
    (game_version : option string) : M unit :=
  project <- get_project env project_id ;;
  match project with
  | None => print ProjectNotFound
  | Some project =>
      print (Installing (title project)) ;;
      versions <- get_versions env project_id game_version ;;
      match versions with
      | [] => print NoCompatibleVersions
      | version :: _ =>
          match primary_file (files version) with
          | None => print NoFilesAvailable
          | Some primary_file =>
              let content_path := get_content_path content_type in
              let filename := file_filename primary_file in
              let destination := path_join env content_path filename in
              print (Downloading filename) ;;
              success <- download_file env (file_url primary_file) destination ;;
              if success : bool then
                print (SuccessfullyInstalled (title project) destination) ;;
                content_dict_setitem content_type project_id
                  {| name := title project;
                     version := version_number version;
                     filename := filename;
                     installed_at := date_published version |} ;;
                _save_installed_content
              else
                print (FailedToInstall (title project))
          end
      end
  end.

(** The tail of [uninstall], once [(project_id, info)] is chosen. *)
Definition uninstall_entry (content_type : ContentType)
    (project_id : string) (info : Entry) : M unit :=
  let content_path := get_content_path content_type in
  let file_path := path_join env content_path (filename info) in
  present <- file_exists (locate env file_path) ;;
  let update_records :=
    content_dict_delitem content_type project_id ;;
    _save_installed_content in
  if present : bool then
    emit (ERemove file_path) ;;
    match os_remove env file_path with
    | None =>
        remove_file (locate env file_path) ;;
        print (Removed (name info) file_path) ;;
        update_records
    | Some e => print (ErrorRemovingFile e)
    end
  else update_records.

(** The line printed for the [i]-th candidate of an ambiguous query. *)
Definition match_line (line : nat * (string * Entry)) : Msg :=
  let '(i, (_, info)) := line in
  MatchLine i (name info) (version info).

(** [uninstall]; [selection] is what [int(input(...))] yields when the
    prompt is reached, [None] being its [ValueError]. *)
Definition uninstall (name_query : string) (content_type : ContentType)
    (selection : option Z) : M unit :=
  b <- content_dict content_type ;;
  let matches := find_matches name_query b in
  match matches with
  | [] => print (NoMatchingFound content_type name_query)
  | [(project_id, info)] => uninstall_entry content_type project_id info
  | _ =>
      print MultipleMatchesFound ;;
      for_each (fun line => print (match_line line))
               (enumerate matches 1) ;;
      match selection with
      | Some selection =>
          if ((1 <=? selection)%Z && (selection <=? Z.of_nat (List.length matches))%Z)%bool
          then
            match nth_error matches (Z.to_nat (selection - 1)) with
            | Some (project_id, info) =>
                uninstall_entry content_type project_id info
            | None => ret tt
            end
          else ret tt
      | None => print InvalidSelection
      end
  end.

(** The body of the [for] loop of [update]. The test before the deletion
    is [old_path != new_path] on the two [Path] objects. *)
Definition update_item (content_type : ContentType)
    (item : string * Entry) : M unit :=
  let '(project_id, info) := item in
  print (Checking (name info)) ;;
  versions <- get_versions env project_id None ;;
  match versions with
  | [] => print NoVersionsFound
  | latest :: _ =>
      if String.eqb (version_number latest) (version info) then
        print (AlreadyUpToDate (version info))
      else
        print (UpdateAvailable (version info) (version_number latest)) ;;
        match primary_file (files latest) with
        | None => print NoFilesAvailable
        | Some primary_file =>
            let content_path := get_content_path content_type in
            let old_path := path_join env content_path (filename info) in
            let new_filename := file_filename primary_file in
            let new_path := path_join env content_path new_filename in
            success <- download_file env (file_url primary_file) new_path ;;
            if success : bool then
              old_present <- file_exists (locate env old_path) ;;
              (if (negb (String.eqb (path_key env old_path) (path_key env new_path))
                   && old_present)%bool then
                 emit (ERemove old_path) ;;
                 match os_remove env old_path with
                 | None => remove_file (locate env old_path)
                 | Some _ => print (WarningCouldNotRemoveOldFile old_path)
                 end
               else ret tt) ;;
              content_dict_setitem content_type project_id
                {| name := name info;
                   version := version_number latest;
                   filename := new_filename;
                   installed_at := date_published latest |} ;;
              _save_installed_content ;;
              print UpdatedSuccessfully
            else
              print UpdateFailed
        end
  end.

(** The entries [update] walks: the matches of a truthy [name_query],
    else every entry; [None] is the early return on no match. *)
Definition items_to_check (name_query : option string) (b : Bucket)
  : option (list (string * Entry)) :=
  match name_query with
  | Some q =>
      if Str.truthy q then
        match find_matches q b with
        | [] => None
        | matches => Some matches
        end
      else Some (Dict.items b)
  | None => Some (Dict.items b)
  end.

(** [update] with a content type. *)
Definition update_type (content_type : ContentType)
    (name_query : option string) : M unit :=
  b <- content_dict content_type ;;
  match items_to_check name_query b with
  | None =>
      print (NoMatchingFound content_type
               (match name_query with Some q => q | None => "" end))
  | Some [] => print (NoneInstalledToUpdate content_type)
  | Some items =>
      print (CheckingForUpdates (List.length items) content_type) ;;
      for_each (update_item content_type) items
  end.

Definition update (content_type : option ContentType)
    (name_query : option string) : M unit :=
  match content_type with
  | None => for_each (fun ct => update_type ct name_query) all_content_types
  | Some ct => update_type ct name_query
  end.

End MinecraftManager.

(** ** Vocabulary of the statements *)

(** [uninstall] settles on [item]: it is the only match, or the selection
    typed at the prompt is in range and points at it. *)
Definition resolves_to (matches : list (string * Entry))
    (selection : option Z) (item : string * Entry) : Prop :=
  matches = [item]
  \/ (1 < List.length matches
      /\ exists k : Z,
           selection = Some k
           /\ (1 <= k <= Z.of_nat (List.length matches))%Z
           /\ nth_error matches (Z.to_nat (k - 1)) = Some item).

(** What [uninstall] prints before it settles on an entry: nothing for a
    single match, the numbered list of candidates for several. *)
Definition selection_prompt (matches : list (string * Entry)) : list Event :=
  match matches with
  | [] => []
  | [_] => []
  | _ =>
      EPrint MultipleMatchesFound
      :: map (fun line => EPrint (match_line line)) (enumerate matches 1)
  end.

(** [f] is the first entry of [fs] flagged primary. *)
Definition first_primary (fs : list File) (f : File) : Prop :=
  exists before after : list File,
    fs = before ++ f :: after
    /\ is_primary f = true
    /\ forall g, In g before -> is_primary g = false.

(** No entry of [fs] is flagged primary. *)
Definition none_primary (fs : list File) : Prop :=
  forall g, In g fs -> is_primary g = false.

(** The downloads a trace records, in order. *)
Fixpoint downloads (t : list Event) : list (string * Path) :=
  match t with
  | [] => []
  | EDownload url destination :: t' => (url, destination) :: downloads t'
  | _ :: t' => downloads t'
  end.

(** The configuration-file writes a trace records, in order. *)
Fixpoint writes (t : list Event) : list string :=
  match t with
  | [] => []
  | EWriteConfig content :: t' => content :: writes t'
  | _ :: t' => writes t'
  end.

(** The deletions a trace records, in order. *)
Fixpoint removals (t : list Event) : list Path :=
  match t with
  | [] => []
  | ERemove p :: t' => p :: removals t'
  | _ :: t' => removals t'
  end.

(** The state with another trace. *)
Definition with_trace (t : list Event) (s : State) : State :=
  {| installed_content := installed_content s;
     disk := disk s;
     trace := t |}.

(** A computation relates every state to the one it leaves. *)
Definition keeps (R : State -> State -> Prop) {A : Type} (m : M A) : Prop :=
  forall s, R s (snd (m s)).

(** What the configuration file holds; [None] when there is none. *)
Definition config_file (env : Env) (s : State) : option string :=
  FS.read (config_loc env) (disk s).

(** Whether the file a path leads to exists. *)
Definition exists_at (env : Env) (p : Path) (s : State) : bool :=
  FS.exists_ (locate env p) (disk s).

(** Only the trace may differ: the ledger in memory and every file,
    the configuration file among them, are what they were. *)
Definition only_trace (s s' : State) : Prop :=
  installed_content s' = installed_content s
  /\ disk s' = disk s.

(** The buckets of the content types other than [ct] are the same. *)
Definition same_other_buckets (ct : ContentType) (s s' : State) : Prop :=
  forall ct', ct' <> ct ->
    get_content_dict ct' (installed_content s')
    = get_content_dict ct' (installed_content s).

(** [lower] does to the texts with only code points below 128 what
    [str.lower] does to them. *)
Definition folds_ascii (lower : string -> string) : Prop :=
  forall s, Str.is_ascii s = true -> lower s = Str.lower s.

(** ** A platform: POSIX paths on a file system without links *)

Module Posix.

(** The pieces of a text between its slashes. *)
Fixpoint split (s : string) : list string :=
  match s with
  | EmptyString => [EmptyString]
  | String c s' =>
      if Ascii.eqb c "/" then EmptyString :: split s'
      else
        match split s' with
        | [] => [String c EmptyString]
        | w :: ws => String c w :: ws
        end
  end.

(** The components [pathlib] keeps: the empty ones and [.] go. *)
Definition parts (s : string) : list string :=
  filter (fun w => negb (String.eqb w "" || String.eqb w ".")%bool) (split s).

(** The root: exactly two leading slashes are kept, any other number is
    one. *)
Definition root (s : string) : string :=
  if (Str.starts_with "//" s && negb (Str.starts_with "///" s))%bool then "//"
  else if Str.starts_with "/" s then "/"
  else "".

Definition render (r : string) (ps : list string) : Path :=
  match r, ps with
  | EmptyString, [] => "."
  | _, _ => (r ++ String.concat "/" ps)%string
  end.

(** [PurePosixPath(s)] *)
Definition normalise (s : string) : Path := render (root s) (parts s).

(** [a / b]: an absolute [b] replaces [a]. *)
Definition join (a : Path) (b : string) : Path :=
  if Str.starts_with "/" b then normalise b
  else render (root a) (parts a ++ parts b).

(** The components left once every [..] has dropped the one before it;
    [up] holds the components passed, the last one first. *)
Fixpoint climb (up : list string) (ps : list string) : list string :=
  match ps with
  | [] => rev up
  | p :: ps' =>
      if String.eqb p ".." then climb (tl up) ps'
      else climb (p :: up) ps'
  end.

(** The file a path leads to, from the root as working directory. *)
Definition locate (p : Path) : Loc :=
  ("/" ++ String.concat "/" (climb [] (parts p)))%string.

End Posix.

(** ** A concrete registry, file system and ledger *)

Module Sample.

Definition sodium_sources : File :=
  {| file_url := "https://cdn.example/sodium-0.5.8-sources.jar";
     file_filename := "sodium-0.5.8-sources.jar";
     file_primary := Some false |}.

Definition sodium_jar : File :=
  {| file_url := "https://cdn.example/sodium-0.5.8.jar";
     file_filename := "sodium-0.5.8.jar";
     file_primary := Some true |}.

Definition sodium_058 : Version :=
  {| version_number := "0.5.8";
     date_published := "2024-02-01T10:00:00Z";
     files := [sodium_sources; sodium_jar] |}.

Definition lithium_jar : File :=
  {| file_url := "https://cdn.example/lithium-0.12.1.jar";
     file_filename := "lithium-0.12.1.jar";
     file_primary := None |}.

Definition lithium_0121 : Version :=
  {| version_number := "0.12.1";
     date_published := "2024-01-15T08:30:00Z";
     files := [lithium_jar] |}.

Definition iris_zip : File :=
  {| file_url := "https://cdn.example/unreachable/iris-1.7.0.jar";
     file_filename := "iris-1.7.0.jar";
     file_primary := Some true |}.

Definition iris_170 : Version :=
  {| version_number := "1.7.0";
     date_published := "2024-03-05T12:00:00Z";
     files := [iris_zip] |}.

Definition sodium_installed : Entry :=
  {| name := "Sodium"; version := "0.5.3";
     filename := "sodium-0.5.3.jar";
     installed_at := "2023-11-01T09:00:00Z" |}.

Definition lithium_installed : Entry :=
  {| name := "Lithium"; version := "0.12.1";
     filename := "lithium-0.12.1.jar";
     installed_at := "2024-01-15T08:30:00Z" |}.

Definition optifine_installed : Entry :=
  {| name := "OptiFine"; version := "HD_U_I6";
     filename := "OptiFine_1.20.1_HD_U_I6.jar";
     installed_at := "2023-08-20T00:00:00Z" |}.

Definition faithful_installed : Entry :=
  {| name := "Faithful 32x"; version := "1.20";
     filename := "Faithful-32x.zip";
     installed_at := "2023-09-09T00:00:00Z" |}.

Definition ledger : Ledger :=
  {| mods := [("AANobbMI", sodium_installed);
              ("gvQqBUqZ", lithium_installed);
              ("optifine", optifine_installed)];
     resourcepacks := [("faithful", faithful_installed)];
     shaderpacks := [] |}.

(** A serialisation that keeps the ids and versions, bucket by bucket. *)
Definition dump_bucket (b : Bucket) : string :=
  String.concat ","
    (map (fun '(pid, e) => (pid ++ "@" ++ version e)%string) b).

Definition dump (l : Ledger) : string :=
  (dump_bucket (mods l) ++ ";" ++ dump_bucket (resourcepacks l) ++ ";"
   ++ dump_bucket (shaderpacks l))%string.

(** The ledger once the entry of OptiFine is gone. *)
Definition ledger_without_optifine : Ledger :=
  {| mods := [("AANobbMI", sodium_installed);
              ("gvQqBUqZ", lithium_installed)];
     resourcepacks := [("faithful", faithful_installed)];
     shaderpacks := [] |}.

(** The ledgers [load] can read back. *)
Definition known_ledgers : list Ledger :=
  [ledger; ledger_without_optifine; empty_ledger].

(** The byte 255, which no text in UTF-8 holds. *)
Definition invalid_byte : string := String (ascii_of_nat 255) "".

(** [json.load] on the texts of the examples: a text that is not UTF-8
    raises [UnicodeDecodeError], the serialisation of a known ledger is
    read back, an empty array is valid JSON of another shape and the rest
    is not JSON. *)
Definition load (c : string) : JsonLoad :=
  if Str.contains invalid_byte c then Propagated "UnicodeDecodeError"
  else
    match find (fun l => String.eqb (dump l) c) known_ledgers with
    | Some l => Parsed (LedgerValue l)
    | None => if String.eqb c "[]" then Parsed OtherValue else JSONDecodeError
    end.

Definition env : Env :=
  {| minecraft_path := "/home/steve/.minecraft";
     path_join := Posix.join;
     path_key := fun p => p;
     locate := Posix.locate;
     str_lower := Str.lower;
     http_project := fun pid =>
       if String.eqb pid "AANobbMI" then Ok {| title := "Sodium" |}
       else if String.eqb pid "gvQqBUqZ" then Ok {| title := "Lithium" |}
       else if String.eqb pid "YL57xq9U" then Ok {| title := "Iris Shaders" |}
       else RequestException "404 Client Error";
     http_versions := fun pid _ =>
       if String.eqb pid "AANobbMI" then Ok [sodium_058]
       else if String.eqb pid "gvQqBUqZ" then Ok [lithium_0121]
       else if String.eqb pid "YL57xq9U" then Ok [iris_170]
       else RequestException "404 Client Error";
     http_download := fun url =>
       if Str.starts_with "https://cdn.example/unreachable/" url
       then DownloadFailed "Connection reset by peer" (Some "PK")
       else Downloaded ("bytes of " ++ url);
     os_remove := fun p =>
       if String.eqb p "/home/steve/.minecraft/mods/sodium-0.5.3.jar"
       then Some "Permission denied"
       else if String.eqb p "/home/steve/.minecraft/mods/lithium-0.12.1.jar"
       then Some "Permission denied"
       else None;
     json_load := load;
     json_dump := dump |}.

(** A registry whose answer for one project names its file so that the
    download lands on the configuration file, and whose download breaks
    off after the first bytes. *)
Definition trap_zip : File :=
  {| file_url := "https://cdn.example/unreachable/trap.zip";
     file_filename := "../minecraft_manager_config.json";
     file_primary := Some true |}.

Definition trap_100 : Version :=
  {| version_number := "1.0.0";
     date_published := "2024-04-01T00:00:00Z";
     files := [trap_zip] |}.

Definition hostile : Env :=
  {| minecraft_path := minecraft_path env;
     path_join := path_join env;
     path_key := path_key env;
     locate := locate env;
     str_lower := str_lower env;
     http_project := fun pid =>
       if String.eqb pid "trap" then Ok {| title := "Trap" |}
       else http_project env pid;
     http_versions := fun pid g =>
       if String.eqb pid "trap" then Ok [trap_100]
       else http_versions env pid g;
     http_download := http_download env;
     os_remove := os_remove env;
     json_load := json_load env;
     json_dump := json_dump env |}.

Definition config : Loc :=
  "/home/steve/.minecraft/minecraft_manager_config.json".

(** The ledger in memory and on file, and three content files. *)
Definition state : State :=
  {| installed_content := ledger;
     disk := [(config, dump ledger);
              ("/home/steve/.minecraft/mods/sodium-0.5.3.jar", "sodium 0.5.3");
              ("/home/steve/.minecraft/mods/lithium-0.12.1.jar",
               "lithium 0.12.1");
              ("/home/steve/.minecraft/resourcepacks/Faithful-32x.zip",
               "faithful")];
     trace := [] |}.

(** Before [__init__], with no configuration file. *)
Definition fresh : State :=
  {| installed_content := empty_ledger;
     disk := [];
     trace := [] |}.

(** Before [__init__], with a configuration file that is not JSON. *)
Definition corrupt : State :=
  {| installed_content := empty_ledger;
     disk := [(config, "{ mods: ")];
     trace := [] |}.

(** Before [__init__], with a configuration file that is not text in
    UTF-8. *)
Definition undecodable : State :=
  {| installed_content := empty_ledger;
     disk := [(config, invalid_byte)];
     trace := [] |}.

(** Before [__init__], with a configuration file that holds an array. *)
Definition array : State :=
  {| installed_content := empty_ledger;
     disk := [(config, "[]")];
     trace := [] |}.

End Sample.

(** ** The rest of the program *)

(** [get_default_minecraft_path]; [system] is [platform.system()] and
    [home] is [Path.home()]. *)
Definition get_default_minecraft_path (env : Env) (system : string)
    (home : Path) : Path :=
  let system := str_lower env system in
  if String.eqb system "windows" then
    path_join env (path_join env (path_join env home "AppData") "Roaming")
      ".minecraft"
  else if String.eqb system "darwin" then
    path_join env
      (path_join env (path_join env home "Library") "Application Support")
      "minecraft"
  else path_join env home ".minecraft".

(** [ContentType(v)]: the member whose value is [v]; [None] is the
    [ValueError] of a string that is no member's value. *)
Definition ContentType_of_value (v : string) : option ContentType :=
  find (fun ct => String.eqb (value ct) v) all_content_types.

(** [[t.value for t in ContentType]], the choices of every [--type]. *)
Definition type_choices : list string := map value all_content_types.

(** [s[:n]] *)
Fixpoint slice_to (n : nat) (s : string) : string :=
  match n, s with
  | S n', String c s' => String c (slice_to n' s')
  | _, _ => EmptyString
  end.

(** One hit of a search; the keys read with [.get] may be absent. *)
Record Hit : Type := mkHit {
  hit_project_id : string;
  hit_title : string;
  hit_description : option string;
  hit_downloads : option Z;
  hit_date_modified : option string
}.

(** What [ModrinthAPI.search] and [MinecraftManager.search] print
    themselves; whatever the [install] they start prints goes to the
    trace. *)
Inductive SearchMsg : Type :=
| ErrorSearchingModrinth (e : string)
| NoResultsFound (query : string)
| SearchResultsFor (query : string)
| ResultsHeader
| ResultLine (i : nat) (title : string) (downloads : option Z) (date : string)
| ResultDescription (shown : string)
| InvalidSearchSelection.

(** [item.get('description', '')] *)
Definition description_or_empty (item : Hit) : string :=
  match hit_description item with
  | Some d => d
  | None => ""
  end.

(** The second line printed for a hit: the description, cut to 80
    characters and followed by three dots when it is longer. *)
Definition shown_description (item : Hit) : string :=
  if (80 <? String.length (description_or_empty item))%nat
  then (slice_to 80 (description_or_empty item) ++ "...")%string
  else description_or_empty item.

(** The two lines printed for the [i]-th hit. *)
Definition result_lines (line : nat * Hit) : list SearchMsg :=
  let '(i, item) := line in
  [ResultLine i (hit_title item) (hit_downloads item)
     (slice_to 10 (match hit_date_modified item with
                   | Some d => d
                   | None => "N/A"
                   end));
   ResultDescription (shown_description item)].

Section Search.

Variable http_search : ModrinthAPI.SearchParams -> Response (list Hit).
Variable env : Env.

(** [ModrinthAPI.search]: the hits of the answer, or the error line and
    no hit. *)
Definition api_search (query : string) (content_type : ContentType)
    (game_versions : option (list string)) (limit : Z)
  : list SearchMsg * list Hit :=
  match http_search
          (ModrinthAPI.search_params query content_type game_versions limit)
  with
  | Ok hits => ([], hits)
  | RequestException e => ([ErrorSearchingModrinth e], [])
  end.

(** [[game_version] if game_version else None] *)
Definition game_versions_of (game_version : option string)
  : option (list string) :=
  match game_version with
  | Some g => if Str.truthy g then Some [g] else None
  | None => None
  end.

(** [MinecraftManager.search]. It returns the lines it prints itself, all
    of them printed before the [install] it may start; [selection] is what
    [int(input(...))] yields, [None] being its [ValueError]. *)
Definition search (query : string) (content_type : ContentType)
    (game_version : option string) (selection : option Z)
  : M (list SearchMsg) :=
  let game_versions := game_versions_of game_version in
  let '(errors, hits) := api_search query content_type game_versions 20 in
  match hits with
  | [] => ret (errors ++ [NoResultsFound query])
  | _ =>
      let table :=
        errors ++ [SearchResultsFor query; ResultsHeader]
        ++ flat_map result_lines (enumerate hits 1) in
      match selection with
      | Some selection =>
          if ((1 <=? selection)%Z
              && (selection <=? Z.of_nat (List.length hits))%Z)%bool
          then
            match nth_error hits (Z.to_nat (selection - 1)) with
            | Some selected =>
                install env (hit_project_id selected) content_type
                  game_version ;;
                ret table
            | None => ret table
            end
          else ret table
      | None => ret (table ++ [InvalidSearchSelection])
      end
  end.

End Search.

(** The lines of [list_installed]. *)
Inductive ListMsg : Type :=
| NoneInstalled (content_type : ContentType)
| InstalledHeader (content_type : ContentType)
| ColumnsHeader
| InstalledLine (name version date : string).

(** [list_installed]: it reads the bucket and prints; the lines it prints
    are its result. *)
Definition list_installed (content_type : ContentType) (l : Ledger)
  : list ListMsg :=
  match Dict.items (get_content_dict content_type l) with
  | [] => [NoneInstalled content_type]
  | items =>
      [InstalledHeader content_type; ColumnsHeader]
      ++ map (fun '(_, info) =>
                InstalledLine (name info) (version info)
                  (slice_to 10 (installed_at info)))
             items
  end.

(** ** More vocabulary *)

(** What [install] is about to download: the project, its first version
    and the file selected in it; [None] when the run stops before. *)
Definition install_target (env : Env) (project_id : string)
    (game_version : option string) : option (Project * Version * File) :=
  match http_project env project_id with
  | Ok project =>
      match http_versions env project_id (versions_params game_version) with
      | Ok (version :: _) =>
          match primary_file (files version) with
          | Some f => Some (project, version, f)
          | None => None
          end
      | _ => None
      end
  | RequestException _ => None
  end.

(** What the step of [update] for an entry is about to download: the
    latest version and its selected file; [None] when the entry is
    skipped. *)
Definition update_target (env : Env) (project_id : string) (info : Entry)
  : option (Version * File) :=
  match http_versions env project_id None with
  | Ok (latest :: _) =>
      if String.eqb (version_number latest) (version info) then None
      else
        match primary_file (files latest) with
        | Some f => Some (latest, f)
        | None => None
        end
  | _ => None
  end.

(** The project ids of a bucket, in order. *)
Definition keys (ct : ContentType) (s : State) : list string :=
  map fst (get_content_dict ct (installed_content s)).

(** The configuration file holds the ledger that is in memory. *)
Definition in_sync (env : Env) (s : State) : Prop :=
  config_file env s = Some (json_dump env (installed_content s)).

(** Ledger and configuration file are what they were. *)
Definition ledger_kept (env : Env) (s s' : State) : Prop :=
  installed_content s' = installed_content s
  /\ config_file env s' = config_file env s.

(** A run either leaves ledger and file alone or ends with the file
    holding the ledger in memory. *)
Definition persisted (env : Env) (s s' : State) : Prop :=
  ledger_kept env s s' \/ in_sync env s'.

(** [f] is a file the manager may be sent to download: the one selected
    in the first version of some answer of the registry. *)
Definition offered (env : Env) (f : File) : Prop :=
  exists project_id game_version version rest,
    http_versions env project_id game_version = Ok (version :: rest)
    /\ primary_file (files version) = Some f.

(** No file name the registry offers leads, from a content directory, to
    the configuration file. *)
Definition registry_spares_config (env : Env) : Prop :=
  forall f ct,
    offered env f ->
    locate env (path_join env (get_content_path env ct) (file_filename f))
    <> config_loc env.

(** Every file that existed still exists. *)
Definition disk_grows (s s' : State) : Prop :=
  forall l, FS.exists_ l (disk s) = true -> FS.exists_ l (disk s') = true.

(** Within every bucket the project ids are pairwise different. *)
Definition keys_unique (s : State) : Prop :=
  forall ct, NoDup (keys ct s).

(** Unique ids stay unique. *)
Definition unique_kept (s s' : State) : Prop :=
  keys_unique s -> keys_unique s'.

(** Every bucket has the ids it had, in the same order. *)
Definition keys_kept (s s' : State) : Prop :=
  forall ct, keys ct s' = keys ct s.

(** The same, provided [project_id] is an id of the bucket of [ct]. *)
Definition keys_kept_for (project_id : string) (ct : ContentType)
    (s s' : State) : Prop :=
  In project_id (keys ct s) -> keys_kept s s'.

(** The entry of [project_id] in the bucket of [ct], if any, is the
    same. *)
Definition entry_kept (project_id : string) (ct : ContentType)
    (s s' : State) : Prop :=
  Dict.get project_id (get_content_dict ct (installed_content s'))
  = Dict.get project_id (get_content_dict ct (installed_content s)).

(** Loading the configuration file of [s] gives the ledger [s] has in
    memory, as far as [json.load] reads back what [json.dump] wrote. *)
Definition reload_agrees (env : Env) (s : State) : Prop :=
  json_load env (json_dump env (installed_content s))
  = Parsed (LedgerValue (installed_content s)) ->
  fst (_load_installed_content env s)
  = Returns (LedgerValue (installed_content s)).

(** * Theorems *)

(** ** Strings *)

Module StrFacts.

Lemma starts_with_app (needle post : string) :
  Str.starts_with needle (needle ++ post) = true.
Proof.
  induction needle as [|a n IH]; simpl.
  - reflexivity.
  - rewrite Ascii.eqb_refl. exact IH.
Qed.

Lemma starts_with_inv (needle hay : string) :
  Str.starts_with needle hay = true ->
  exists post : string, hay = (needle ++ post)%string.
Proof.
  revert hay. induction needle as [|a n IH]; intros hay H.
  - exists hay. reflexivity.
  - destruct hay as [|b h]; simpl in H; [discriminate|].
    apply andb_true_iff in H. destruct H as [Hab Hn].
    apply Ascii.eqb_eq in Hab. subst b.
    destruct (IH h Hn) as [post ->].
    exists post. reflexivity.
Qed.

Lemma contains_sound (needle hay : string) :
  Str.contains needle hay = true -> Str.substring_of needle hay.
Proof.
  induction hay as [|c h IH]; simpl; intros H.
  - rewrite orb_false_r in H.
    destruct (starts_with_inv _ _ H) as [post Hp].
    exists EmptyString, post. exact Hp.
  - apply orb_true_iff in H. destruct H as [H|H].
    + destruct (starts_with_inv _ _ H) as [post Hp].
      exists EmptyString, post. exact Hp.
    + destruct (IH H) as (pre & post & ->).
      exists (String c pre), post. reflexivity.
Qed.

Lemma contains_complete (needle pre post : string) :
  Str.contains needle (pre ++ needle ++ post) = true.
Proof.
  induction pre as [|c pre IH].
  - simpl. destruct (needle ++ post)%string eqn:E.
    + simpl. rewrite <- E. rewrite starts_with_app. reflexivity.
    + simpl. rewrite <- E. rewrite starts_with_app. reflexivity.
  - change (String c pre ++ needle ++ post)%string
      with (String c (pre ++ needle ++ post)).
    simpl. rewrite IH. apply orb_true_r.
Qed.

Lemma contains_spec (needle hay : string) :
  Str.contains needle hay = true <-> Str.substring_of needle hay.
Proof.
  split.
  - apply contains_sound.
  - intros (pre & post & ->). apply contains_complete.
Qed.

Lemma substring_of_empty (hay : string) : Str.substring_of "" hay.
Proof. exists EmptyString, hay. reflexivity. Qed.

End StrFacts.

(** ** ModrinthAPI.search *)

Module SearchFacts.
Import ModrinthAPI.

(** For mods and resource packs the request carries the facet of the
    content type. *)
Lemma facet_sent_for_mod_and_resource_pack
    (query : string) (ct : ContentType) (gv : option (list string)) (limit : Z) :
  ct <> SHADER_PACK ->
  In (project_type_facet ct) (sent_facets (search_params query ct gv limit)).
Proof.
  intros Hct.
  destruct ct; [| |congruence];
    destruct gv as [[|v vs]|]; simpl; auto.
Qed.

Lemma versions_facet_is_not_project_type (vs : list string) (ct : ContentType) :
  map (fun v => ("versions:" ++ v)%string) vs <> project_type_facet ct.
Proof.
  destruct vs as [|v vs]; simpl; [discriminate|].
  unfold project_type_facet. intros H. injection H as H _. discriminate H.
Qed.

End SearchFacts.

(** C1 (fails on the code): for a shader pack, [search] binds the
    project-type facet and then rebinds [facets] to the empty list, so the
    request never carries the facet of that content type: the search for
    "sodium" among shader packs sends no facets at all, and whatever the
    query, version filter and limit, the facet [project_type:shader] is not
    among those sent. *)
Theorem search_shader_pack_omits_project_type_facet :
  ModrinthAPI.search_params "sodium" SHADER_PACK None 20
  = {| ModrinthAPI.param_query := "sodium";
       ModrinthAPI.param_limit := 20;
       ModrinthAPI.param_facets := None |}
  /\ forall (query : string) (gv : option (list string)) (limit : Z),
       ~ In (ModrinthAPI.project_type_facet SHADER_PACK)
            (ModrinthAPI.sent_facets
               (ModrinthAPI.search_params query SHADER_PACK gv limit)).
Proof.
  split; [reflexivity|].
  intros query gv limit.
  destruct gv as [[|v vs]|]; simpl; try tauto.
  intros [H|[]].
  exact (SearchFacts.versions_facet_is_not_project_type (v :: vs) SHADER_PACK H).
Qed.

(** ** Primary-file selection *)

Module PrimaryFacts.

Lemma next_or_first (fs : list File) (d f : File) :
  first_primary fs f -> next_or is_primary fs d = f.
Proof.
  intros (before & after & -> & Hf & Hb).
  induction before as [|g before IH]; simpl.
  - rewrite Hf. reflexivity.
  - rewrite (Hb g (or_introl eq_refl)).
    apply IH. intros h Hh. apply Hb. right. exact Hh.
Qed.

Lemma next_or_none (fs : list File) (d : File) :
  none_primary fs -> next_or is_primary fs d = d.
Proof.
  induction fs as [|g fs IH]; simpl; intros H.
  - reflexivity.
  - rewrite (H g (or_introl eq_refl)).
    apply IH. intros h Hh. apply H. right. exact Hh.
Qed.

(** Every file set has a first primary entry or none at all. *)
Lemma first_or_none (fs : list File) :
  (exists f, first_primary fs f) \/ none_primary fs.
Proof.
  induction fs as [|g fs IH].
  - right. intros h [].
  - destruct (is_primary g) eqn:Hg.
    + left. exists g, [], fs. repeat split; [exact Hg|intros h []].
    + destruct IH as [(f & before & after & -> & Hf & Hb)|Hn].
      * left. exists f, (g :: before), after. repeat split; [exact Hf|].
        intros h [<-|Hh]; [exact Hg|exact (Hb h Hh)].
      * right. intros h [<-|Hh]; [exact Hg|exact (Hn h Hh)].
Qed.

End PrimaryFacts.

(** ** Running the monad *)

(** Unfolds the plumbing of [M] and the one-line helpers, leaving the
    calls to the environment in view. *)
Ltac step :=
  cbv [exec bind ret print emit get_installed_content set_installed_content
       read_file file_exists write_file remove_file
       get_project get_versions download_file _save_installed_content
       content_dict content_dict_setitem content_dict_delitem];
  cbn [fst snd trace installed_content disk negb andb].

(** Flattens a trace built by successive appends. *)
Ltac flat := repeat rewrite <- app_assoc; cbn [app].

Module TraceFacts.

Lemma downloads_app (t1 t2 : list Event) :
  downloads (t1 ++ t2) = downloads t1 ++ downloads t2.
Proof.
  induction t1 as [|[] t1 IH]; simpl; rewrite ?IH; reflexivity.
Qed.

Lemma writes_app (t1 t2 : list Event) :
  writes (t1 ++ t2) = writes t1 ++ writes t2.
Proof.
  induction t1 as [|[] t1 IH]; simpl; rewrite ?IH; reflexivity.
Qed.

Lemma removals_app (t1 t2 : list Event) :
  removals (t1 ++ t2) = removals t1 ++ removals t2.
Proof.
  induction t1 as [|[] t1 IH]; simpl; rewrite ?IH; reflexivity.
Qed.

Lemma prints_only {X : Type} (f : X -> Msg) (xs : list X) :
  downloads (map (fun x => EPrint (f x)) xs) = []
  /\ writes (map (fun x => EPrint (f x)) xs) = []
  /\ removals (map (fun x => EPrint (f x)) xs) = [].
Proof.
  induction xs as [|x xs IH]; simpl; [repeat split|exact IH].
Qed.

Lemma with_trace_id (s : State) : with_trace (trace s) s = s.
Proof. destruct s. reflexivity. Qed.

(** A loop whose body only prints appends one line per element. *)
Lemma for_each_prints {X : Type} (body : X -> M unit) (f : X -> Msg)
    (xs : list X) :
  (forall x s, body x s = print (f x) s) ->
  forall s,
    for_each body xs s
    = (tt, with_trace (trace s ++ map (fun x => EPrint (f x)) xs) s).
Proof.
  intros Hbody. induction xs as [|x xs IH]; intros s.
  - simpl. rewrite app_nil_r, with_trace_id. reflexivity.
  - simpl. unfold bind at 1. rewrite Hbody. step.
    rewrite IH. unfold with_trace. step. flat. reflexivity.
Qed.

End TraceFacts.

(** C2: on a non-empty file set the selection yields a file, which is the
    first entry flagged primary when there is one and the first entry of
    the set when none is flagged; [install] and [update] each download
    exactly that file, to the directory of the content type. *)
Theorem primary_file_is_first_flagged_else_first (fs : list File) :
  fs <> [] ->
  exists f : File,
    primary_file fs = Some f
    /\ (forall g, first_primary fs g -> f = g)
    /\ (none_primary fs -> hd_error fs = Some f)
    /\ (forall env s project_id ct gv project version rest,
          http_project env project_id = Ok project ->
          http_versions env project_id (versions_params gv)
          = Ok (version :: rest) ->
          files version = fs ->
          downloads (trace (exec (install env project_id ct gv) s))
          = downloads (trace s)
            ++ [(file_url f,
                 path_join env (get_content_path env ct) (file_filename f))])
    /\ (forall env s project_id ct info latest rest,
          http_versions env project_id None = Ok (latest :: rest) ->
          version_number latest <> version info ->
          files latest = fs ->
          downloads (trace (exec (update_item env ct (project_id, info)) s))
          = downloads (trace s)
            ++ [(file_url f,
                 path_join env (get_content_path env ct) (file_filename f))]).
Proof.
  intros Hne. destruct fs as [|f0 fs0] eqn:Hfs; [congruence|].
  rewrite <- Hfs. exists (next_or is_primary fs f0).
  assert (Hsel : primary_file fs = Some (next_or is_primary fs f0))
    by (rewrite Hfs; reflexivity).
  split; [exact Hsel|]. split; [|split; [|split]].
  - intros g Hg. apply PrimaryFacts.next_or_first. exact Hg.
  - intros Hnone. rewrite (PrimaryFacts.next_or_none fs f0 Hnone).
    rewrite Hfs. reflexivity.
  - intros env s pid ct gv project version rest H1 H2 H3.
    unfold install. step. rewrite H1, H2, H3, Hsel.
    destruct (http_download env _) as [body|e [bytes|]]; step;
      repeat rewrite TraceFacts.downloads_app; simpl;
      rewrite ?app_nil_r; reflexivity.
  - intros env s pid ct info latest rest H1 H2 H3.
    apply String.eqb_neq in H2.
    unfold update_item. step. change (versions_params None) with (@None string).
    rewrite H1, H2, H3, Hsel.
    destruct (http_download env _) as [body|e [bytes|]]; step.
    + destruct (negb _ && _)%bool; [destruct (os_remove env _)|]; step;
        repeat rewrite TraceFacts.downloads_app; simpl;
        rewrite ?app_nil_r; reflexivity.
    + repeat rewrite TraceFacts.downloads_app; simpl;
        rewrite ?app_nil_r; reflexivity.
    + repeat rewrite TraceFacts.downloads_app; simpl;
        rewrite ?app_nil_r; reflexivity.
Qed.

Lemma primary_file_is_first_flagged_else_first_witness :
  [Sample.sodium_sources; Sample.sodium_jar] <> []
  /\ exists f : File,
       primary_file [Sample.sodium_sources; Sample.sodium_jar] = Some f
       /\ f = Sample.sodium_jar.
Proof.
  assert (Hne : [Sample.sodium_sources; Sample.sodium_jar] <> [])
    by discriminate.
  split; [exact Hne|].
  destruct (primary_file_is_first_flagged_else_first _ Hne)
    as (f & Hsel & _).
  exists f. split; [exact Hsel|].
  vm_compute in Hsel. injection Hsel as <-. reflexivity.
Defined.

(** ** Files *)

Module FSFacts.

Lemma read_remove_same (l : Loc) (fs : FS.t) : FS.read l (FS.remove l fs) = None.
Proof.
  induction fs as [|[k c] fs IH]; simpl; [reflexivity|].
  destruct (String.eqb k l) eqn:E; simpl; [exact IH|].
  rewrite E. exact IH.
Qed.

Lemma read_remove_other (l l' : Loc) (fs : FS.t) :
  l <> l' -> FS.read l (FS.remove l' fs) = FS.read l fs.
Proof.
  intros Hne. induction fs as [|[k c] fs IH]; simpl; [reflexivity|].
  destruct (String.eqb k l') eqn:E; simpl.
  - apply String.eqb_eq in E. subst k.
    destruct (String.eqb l' l) eqn:E'; [|exact IH].
    apply String.eqb_eq in E'. congruence.
  - destruct (String.eqb k l); [reflexivity|exact IH].
Qed.

Lemma read_write_same (l : Loc) (c : string) (fs : FS.t) :
  FS.read l (FS.write l c fs) = Some c.
Proof. unfold FS.write. simpl. rewrite String.eqb_refl. reflexivity. Qed.

Lemma read_write_other (l l' : Loc) (c : string) (fs : FS.t) :
  l <> l' -> FS.read l (FS.write l' c fs) = FS.read l fs.
Proof.
  intros Hne. unfold FS.write. simpl.
  destruct (String.eqb l' l) eqn:E.
  - apply String.eqb_eq in E. congruence.
  - apply read_remove_other. exact Hne.
Qed.

Lemma exists_write_same (l : Loc) (c : string) (fs : FS.t) :
  FS.exists_ l (FS.write l c fs) = true.
Proof. unfold FS.exists_. rewrite read_write_same. reflexivity. Qed.

Lemma exists_write_other (l l' : Loc) (c : string) (fs : FS.t) :
  l <> l' -> FS.exists_ l (FS.write l' c fs) = FS.exists_ l fs.
Proof.
  intros Hne. unfold FS.exists_. rewrite read_write_other by exact Hne.
  reflexivity.
Qed.

Lemma exists_remove_same (l : Loc) (fs : FS.t) :
  FS.exists_ l (FS.remove l fs) = false.
Proof. unfold FS.exists_. rewrite read_remove_same. reflexivity. Qed.

Lemma exists_remove_other (l l' : Loc) (fs : FS.t) :
  l <> l' -> FS.exists_ l (FS.remove l' fs) = FS.exists_ l fs.
Proof.
  intros Hne. unfold FS.exists_. rewrite read_remove_other by exact Hne.
  reflexivity.
Qed.

(** Writing a file takes no file away. *)
Lemma exists_write_grows (l l' : Loc) (c : string) (fs : FS.t) :
  FS.exists_ l fs = true -> FS.exists_ l (FS.write l' c fs) = true.
Proof.
  intros H. destruct (String.eqb l l') eqn:E.
  - apply String.eqb_eq in E. subst l'. apply exists_write_same.
  - apply String.eqb_neq in E. rewrite exists_write_other by exact E. exact H.
Qed.

Lemma exists_read (l : Loc) (fs : FS.t) :
  FS.exists_ l fs = false <-> FS.read l fs = None.
Proof.
  unfold FS.exists_. destruct (FS.read l fs); split; congruence.
Qed.

End FSFacts.

(** ** install *)

(** C3 (fails on the code as stated): the registry names the file, and
    [install] joins that name to the content directory and opens the
    result for writing. With the name [../minecraft_manager_config.json]
    the destination is the configuration file; the download breaks off
    after two bytes, [install] reports the failure, and the persisted
    ledger is gone: the file holds the two bytes. *)
Lemma install_failed_download_can_overwrite_the_ledger_file :
  http_download Sample.hostile (file_url Sample.trap_zip)
  = DownloadFailed "Connection reset by peer" (Some "PK")
  /\ config_file Sample.hostile Sample.state
     = Some (Sample.dump Sample.ledger)
  /\ config_file Sample.hostile
       (exec (install Sample.hostile "trap" MOD None) Sample.state)
     = Some "PK"
  /\ config_file Sample.hostile
       (exec (install Sample.hostile "trap" MOD None) Sample.state)
     <> config_file Sample.hostile Sample.state
  /\ trace (exec (install Sample.hostile "trap" MOD None) Sample.state)
     = [EPrint (Installing "Trap");
        EPrint (Downloading "../minecraft_manager_config.json");
        EDownload "https://cdn.example/unreachable/trap.zip"
          "/home/steve/.minecraft/mods/../minecraft_manager_config.json";
        EPrint (ErrorDownloadingFile "Connection reset by peer");
        EPrint (FailedToInstall "Trap")].
Proof.
  repeat split; try reflexivity.
  vm_compute. discriminate.
Qed.

(** C3, amended: when the download that [install] starts reports failure,
    the ledger in memory is what it was, no write of the configuration
    file is attempted, and the run ends by reporting the failure. The
    files are what they were when the download failed before its
    destination was opened; otherwise the destination holds the bytes
    received and every other file is what it was. So the configuration
    file is what it was unless the destination leads to it and was
    opened. *)
Theorem install_download_failure_leaves_ledger
    (env : Env) (s : State) (project_id : string) (ct : ContentType)
    (gv : option string) (project : Project) (version : Version)
    (rest : list Version) (f : File) (e : string) (written : option string) :
  http_project env project_id = Ok project ->
  http_versions env project_id (versions_params gv) = Ok (version :: rest) ->
  primary_file (files version) = Some f ->
  http_download env (file_url f) = DownloadFailed e written ->
  let destination :=
    path_join env (get_content_path env ct) (file_filename f) in
  let s' := exec (install env project_id ct gv) s in
  installed_content s' = installed_content s
  /\ writes (trace s') = writes (trace s)
  /\ trace s'
     = trace s
       ++ [EPrint (Installing (title project));
           EPrint (Downloading (file_filename f));
           EDownload (file_url f) destination;
           EPrint (ErrorDownloadingFile e);
           EPrint (FailedToInstall (title project))]
  /\ disk s'
     = match written with
       | Some bytes => FS.write (locate env destination) bytes (disk s)
       | None => disk s
       end
  /\ (written = None \/ locate env destination <> config_loc env ->
      config_file env s' = config_file env s).
Proof.
  intros H1 H2 H3 H4 destination s'. subst destination s'.
  unfold install. step. rewrite H1, H2, H3, H4.
  destruct written as [bytes|]; step.
  - repeat split.
    + repeat rewrite TraceFacts.writes_app. simpl.
      rewrite ?app_nil_r. reflexivity.
    + flat. reflexivity.
    + intros [Hw|Hloc]; [discriminate|].
      unfold config_file. cbn [disk].
      apply FSFacts.read_write_other. congruence.
  - repeat split.
    + repeat rewrite TraceFacts.writes_app. simpl.
      rewrite ?app_nil_r. reflexivity.
    + flat. reflexivity.
Qed.

Lemma install_download_failure_leaves_ledger_witness :
  installed_content
    (exec (install Sample.env "YL57xq9U" MOD None) Sample.state)
  = Sample.ledger
  /\ config_file Sample.env
       (exec (install Sample.env "YL57xq9U" MOD None) Sample.state)
     = Some (Sample.dump Sample.ledger).
Proof.
  destruct (install_download_failure_leaves_ledger
              Sample.env Sample.state "YL57xq9U" MOD None
              {| title := "Iris Shaders" |} Sample.iris_170 []
              Sample.iris_zip "Connection reset by peer" (Some "PK")
              eq_refl eq_refl eq_refl eq_refl)
    as (Hl & _ & _ & _ & Hc).
  split; [exact Hl|].
  rewrite Hc; [reflexivity|].
  right. vm_compute. discriminate.
Defined.

(** ** Loading the ledger *)

Module LoadFacts.

(** When the configuration file is missing, or [json.load] raises
    [JSONDecodeError] on it, loading returns the structure with three
    empty buckets and touches nothing but the output: silent for a
    missing file, one warning otherwise; the manager then starts from the
    empty ledger. *)
Lemma defaults_when_missing_or_not_json (env : Env) (s : State) :
  (config_file env s = None
   \/ exists c, config_file env s = Some c
                /\ json_load env c = JSONDecodeError) ->
  fst (_load_installed_content env s)
  = Returns
      (LedgerValue {| mods := []; resourcepacks := []; shaderpacks := [] |})
  /\ only_trace s (snd (_load_installed_content env s))
  /\ (config_file env s = None ->
      trace (snd (_load_installed_content env s)) = trace s)
  /\ (config_file env s <> None ->
      trace (snd (_load_installed_content env s))
      = trace s ++ [EPrint WarningConfigCorrupted])
  /\ fst (init env s) = Ready
  /\ installed_content (exec (init env) s) = empty_ledger.
Proof.
  unfold config_file.
  intros [Hc|(c & Hc & Hload)];
    unfold init, _load_installed_content, only_trace; step;
    rewrite Hc; try rewrite Hload; step.
  - repeat split; congruence.
  - repeat split; congruence.
Qed.

(** An exception of [json.load] other than [JSONDecodeError] leaves
    [_load_installed_content], and [__init__] with it. *)
Lemma raises_what_json_load_raises (env : Env) (s : State) (c exn : string) :
  config_file env s = Some c ->
  json_load env c = Propagated exn ->
  _load_installed_content env s = (Raises exn, s)
  /\ init env s = (Crashed exn, s).
Proof.
  unfold config_file. intros Hc Hload.
  unfold init, _load_installed_content; step.
  rewrite Hc, Hload. split; reflexivity.
Qed.

End LoadFacts.

(** C9 (fails on the code): [_load_installed_content] catches
    [JSONDecodeError] only. A configuration file that is not text in
    UTF-8 makes [json.load] raise [UnicodeDecodeError]; nothing catches
    it, no warning is printed and [__init__] ends with that exception
    instead of the three empty buckets. The same holds for whatever else
    [json.load] raises. A missing file, and a file on which [json.load]
    raises [JSONDecodeError], do give the three empty buckets, the second
    with a warning. *)
Theorem load_raises_on_a_file_that_is_not_text :
  config_file Sample.env Sample.undecodable = Some Sample.invalid_byte
  /\ json_load Sample.env Sample.invalid_byte
     = Propagated "UnicodeDecodeError"
  /\ _load_installed_content Sample.env Sample.undecodable
     = (Raises "UnicodeDecodeError", Sample.undecodable)
  /\ init Sample.env Sample.undecodable
     = (Crashed "UnicodeDecodeError", Sample.undecodable)
  /\ (forall env s c exn,
        config_file env s = Some c ->
        json_load env c = Propagated exn ->
        init env s = (Crashed exn, s))
  /\ (forall env s,
        (config_file env s = None
         \/ exists c, config_file env s = Some c
                      /\ json_load env c = JSONDecodeError) ->
        fst (_load_installed_content env s)
        = Returns (LedgerValue empty_ledger)
        /\ only_trace s (snd (_load_installed_content env s))
        /\ (config_file env s <> None ->
            trace (snd (_load_installed_content env s))
            = trace s ++ [EPrint WarningConfigCorrupted])
        /\ fst (init env s) = Ready
        /\ installed_content (exec (init env) s) = empty_ledger).
Proof.
  split; [reflexivity|]. split; [reflexivity|].
  split; [reflexivity|]. split; [reflexivity|]. split.
  - intros env s c exn Hc Hload.
    apply (LoadFacts.raises_what_json_load_raises env s c exn Hc Hload).
  - intros env s H.
    destruct (LoadFacts.defaults_when_missing_or_not_json env s H)
      as (H1 & H2 & _ & H4 & H5 & H6).
    split; [exact H1|]. split; [exact H2|]. split; [exact H4|].
    split; [exact H5|exact H6].
Qed.

(** ** The ledger *)

Module LedgerFacts.

Lemma get_set_same (ct : ContentType) (b : Bucket) (l : Ledger) :
  get_content_dict ct (set_content_dict ct b l) = b.
Proof. destruct ct; reflexivity. Qed.

Lemma get_set_other (ct ct' : ContentType) (b : Bucket) (l : Ledger) :
  ct' <> ct ->
  get_content_dict ct' (set_content_dict ct b l) = get_content_dict ct' l.
Proof. destruct ct, ct'; intros H; try reflexivity; congruence. Qed.

Lemma get_setitem {V : Type} (k : string) (v : V) (d : Dict.t V) :
  Dict.get k (Dict.setitem k v d) = Some v.
Proof.
  induction d as [|[k' v'] d IH]; simpl.
  - rewrite String.eqb_refl. reflexivity.
  - destruct (String.eqb k' k) eqn:E; simpl.
    + rewrite String.eqb_refl. reflexivity.
    + rewrite E. exact IH.
Qed.

Lemma get_None_not_In {V : Type} (k : string) (d : Dict.t V) :
  ~ In k (map fst d) -> Dict.get k d = None.
Proof.
  induction d as [|[k' v'] d IH]; simpl; intros H.
  - reflexivity.
  - destruct (String.eqb_spec k' k) as [->|Hne].
    + exfalso. apply H. left. reflexivity.
    + apply IH. intros Hin. apply H. right. exact Hin.
Qed.

Lemma delitem_keys_subset {V : Type} (k x : string) (d : Dict.t V) :
  In x (map fst (Dict.delitem k d)) -> In x (map fst d).
Proof.
  induction d as [|[k' v'] d IH]; simpl; intros H.
  - exact H.
  - destruct (String.eqb k' k); simpl in *.
    + right. exact H.
    + destruct H as [H|H]; [left; exact H|right; exact (IH H)].
Qed.

(** With unique keys, [del d[k]] leaves no entry under [k]. *)
Lemma get_delitem {V : Type} (k : string) (d : Dict.t V) :
  NoDup (map fst d) -> Dict.get k (Dict.delitem k d) = None.
Proof.
  induction d as [|[k' v'] d IH]; simpl; intros H.
  - reflexivity.
  - inversion H as [|? ? Hnotin Hnd]; subst.
    destruct (String.eqb_spec k' k) as [->|Hne].
    + apply get_None_not_In. exact Hnotin.
    + simpl. destruct (String.eqb_spec k' k); [congruence|].
      apply IH. exact Hnd.
Qed.

End LedgerFacts.

Module UninstallFacts.

Lemma uninstall_resolved (env : Env) (s : State) (q : string)
    (ct : ContentType) (selection : option Z) (pid : string) (info : Entry) :
  resolves_to (find_matches env q (get_content_dict ct (installed_content s)))
    selection (pid, info) ->
  uninstall env q ct selection s
  = uninstall_entry env ct pid info
      (with_trace
         (trace s
          ++ selection_prompt
               (find_matches env q (get_content_dict ct (installed_content s))))
         s).
Proof.
  intros [Hone|(Hlen & k & -> & Hk & Hnth)]; unfold uninstall; step.
  - rewrite Hone. simpl. rewrite app_nil_r, TraceFacts.with_trace_id.
    reflexivity.
  - destruct (find_matches env q _) as [|[p1 i1] [|m2 ms]] eqn:E;
      simpl in Hlen; try lia.
    rewrite (TraceFacts.for_each_prints _ match_line) by reflexivity.
    assert (Hrange : ((1 <=? k)%Z && (k <=? Z.of_nat (List.length ((p1, i1) :: m2 :: ms)))%Z)%bool = true).
    { apply andb_true_iff. split; apply Z.leb_le; lia. }
    rewrite Hrange, Hnth. unfold with_trace. simpl.
    flat. reflexivity.
Qed.

Lemma prompt_prints (ms : list (string * Entry)) :
  downloads (selection_prompt ms) = []
  /\ writes (selection_prompt ms) = []
  /\ removals (selection_prompt ms) = [].
Proof.
  destruct ms as [|m1 [|m2 ms]]; try (repeat split; reflexivity).
  unfold selection_prompt.
  exact (TraceFacts.prints_only match_line _).
Qed.

Lemma prompt_writes (ms : list (string * Entry)) :
  writes (selection_prompt ms) = [].
Proof. apply prompt_prints. Qed.

Lemma prompt_removals (ms : list (string * Entry)) :
  removals (selection_prompt ms) = [].
Proof. apply prompt_prints. Qed.

End UninstallFacts.

(** ** uninstall *)

(** C4: when [uninstall] has settled on an entry whose file exists and
    [os.remove] raises, the run stops after reporting the error: the
    ledger in memory and every file, the configuration file among them,
    are what they were, the entry is still in its bucket, and no write of
    the configuration file is attempted. *)
Theorem uninstall_delete_failure_aborts
    (env : Env) (s : State) (name_query : string) (ct : ContentType)
    (selection : option Z) (project_id : string) (info : Entry) (e : string) :
  resolves_to
    (find_matches env name_query
       (get_content_dict ct (installed_content s)))
    selection (project_id, info) ->
  exists_at env (path_join env (get_content_path env ct) (filename info)) s
  = true ->
  os_remove env (path_join env (get_content_path env ct) (filename info))
  = Some e ->
  installed_content (exec (uninstall env name_query ct selection) s)
  = installed_content s
  /\ config_file env (exec (uninstall env name_query ct selection) s)
     = config_file env s
  /\ disk (exec (uninstall env name_query ct selection) s) = disk s
  /\ writes (trace (exec (uninstall env name_query ct selection) s))
     = writes (trace s)
  /\ trace (exec (uninstall env name_query ct selection) s)
     = trace s
       ++ selection_prompt
            (find_matches env name_query
               (get_content_dict ct (installed_content s)))
       ++ [ERemove
             (path_join env (get_content_path env ct) (filename info));
           EPrint (ErrorRemovingFile e)].
Proof.
  intros Hres Hexists Hremove. unfold exists_at in Hexists.
  unfold exec. rewrite (UninstallFacts.uninstall_resolved _ _ _ _ _ _ _ Hres).
  unfold uninstall_entry, with_trace, config_file. step. rewrite Hexists. step.
  rewrite Hremove. step.
  repeat split.
  - repeat rewrite TraceFacts.writes_app.
    rewrite UninstallFacts.prompt_writes. simpl.
    rewrite ?app_nil_r. reflexivity.
  - flat. reflexivity.
Qed.

Lemma uninstall_delete_failure_aborts_witness :
  installed_content (exec (uninstall Sample.env "lith" MOD None) Sample.state)
  = Sample.ledger
  /\ config_file Sample.env
       (exec (uninstall Sample.env "lith" MOD None) Sample.state)
     = Some (Sample.dump Sample.ledger).
Proof.
  destruct (uninstall_delete_failure_aborts
              Sample.env Sample.state "lith" MOD None
              "gvQqBUqZ" Sample.lithium_installed "Permission denied"
              (or_introl eq_refl) eq_refl eq_refl)
    as (Hl & Hc & _).
  split; [exact Hl|exact Hc].
Defined.

(** C7: when [uninstall] has settled on an entry whose file does not
    exist, nothing is deleted and nothing is reported as failed: the entry
    is taken out of the bucket of the content type and the ledger is
    written to the configuration file, which is the only file touched. *)
Theorem uninstall_absent_file_still_removes_entry
    (env : Env) (s : State) (name_query : string) (ct : ContentType)
    (selection : option Z) (project_id : string) (info : Entry) :
  resolves_to
    (find_matches env name_query
       (get_content_dict ct (installed_content s)))
    selection (project_id, info) ->
  exists_at env (path_join env (get_content_path env ct) (filename info)) s
  = false ->
  let l' :=
    set_content_dict ct
      (Dict.delitem project_id (get_content_dict ct (installed_content s)))
      (installed_content s) in
  installed_content (exec (uninstall env name_query ct selection) s) = l'
  /\ config_file env (exec (uninstall env name_query ct selection) s)
     = Some (json_dump env l')
  /\ disk (exec (uninstall env name_query ct selection) s)
     = FS.write (config_loc env) (json_dump env l') (disk s)
  /\ removals (trace (exec (uninstall env name_query ct selection) s))
     = removals (trace s)
  /\ trace (exec (uninstall env name_query ct selection) s)
     = trace s
       ++ selection_prompt
            (find_matches env name_query
               (get_content_dict ct (installed_content s)))
       ++ [EWriteConfig (json_dump env l')]
  /\ (NoDup (map fst (get_content_dict ct (installed_content s))) ->
      Dict.get project_id (get_content_dict ct l') = None).
Proof.
  intros Hres Hexists l'. unfold exists_at in Hexists.
  unfold exec. rewrite (UninstallFacts.uninstall_resolved _ _ _ _ _ _ _ Hres).
  unfold uninstall_entry, with_trace, config_file. step. rewrite Hexists. step.
  repeat split.
  - apply FSFacts.read_write_same.
  - repeat rewrite TraceFacts.removals_app.
    rewrite UninstallFacts.prompt_removals. simpl.
    rewrite ?app_nil_r. reflexivity.
  - flat. reflexivity.
  - intros Hnd. unfold l'. rewrite LedgerFacts.get_set_same.
    apply LedgerFacts.get_delitem. exact Hnd.
Qed.

Lemma uninstall_absent_file_still_removes_entry_witness :
  mods (installed_content
          (exec (uninstall Sample.env "opti" MOD None) Sample.state))
  = [("AANobbMI", Sample.sodium_installed);
     ("gvQqBUqZ", Sample.lithium_installed)]
  /\ config_file Sample.env
       (exec (uninstall Sample.env "opti" MOD None) Sample.state)
     = Some "AANobbMI@0.5.3,gvQqBUqZ@0.12.1;faithful@1.20;".
Proof.
  destruct (uninstall_absent_file_still_removes_entry
              Sample.env Sample.state "opti" MOD None
              "optifine" Sample.optifine_installed
              (or_introl eq_refl) eq_refl)
    as (Hl & Hc & _).
  split.
  - rewrite Hl. reflexivity.
  - rewrite Hc. reflexivity.
Defined.

(** ** update *)

(** C5: an entry whose latest remote version label equals the recorded
    one is reported as up to date and skipped: the step of [update] for it
    changes nothing but the output, starts no download and writes no
    configuration file. *)
Theorem update_skips_entry_already_up_to_date
    (env : Env) (s : State) (ct : ContentType) (project_id : string)
    (info : Entry) (latest : Version) (rest : list Version) :
  http_versions env project_id None = Ok (latest :: rest) ->
  version_number latest = version info ->
  only_trace s (exec (update_item env ct (project_id, info)) s)
  /\ downloads (trace (exec (update_item env ct (project_id, info)) s))
     = downloads (trace s)
  /\ writes (trace (exec (update_item env ct (project_id, info)) s))
     = writes (trace s)
  /\ trace (exec (update_item env ct (project_id, info)) s)
     = trace s
       ++ [EPrint (Checking (name info));
           EPrint (AlreadyUpToDate (version info))].
Proof.
  intros Hv Heq. apply String.eqb_eq in Heq.
  unfold update_item, only_trace. step.
  change (versions_params None) with (@None string).
  rewrite Hv, Heq. step.
  repeat split.
  - repeat rewrite TraceFacts.downloads_app. simpl.
    rewrite ?app_nil_r. reflexivity.
  - repeat rewrite TraceFacts.writes_app. simpl.
    rewrite ?app_nil_r. reflexivity.
  - flat. reflexivity.
Qed.

Lemma update_skips_entry_already_up_to_date_witness :
  trace (exec (update_item Sample.env MOD
                 ("gvQqBUqZ", Sample.lithium_installed)) Sample.state)
  = [EPrint (Checking "Lithium"); EPrint (AlreadyUpToDate "0.12.1")].
Proof.
  destruct (update_skips_entry_already_up_to_date
              Sample.env Sample.state MOD "gvQqBUqZ"
              Sample.lithium_installed Sample.lithium_0121 []
              eq_refl eq_refl)
    as (_ & _ & _ & Ht).
  exact Ht.
Defined.



(** ** The name filter *)

Module FilterFacts.

Lemma name_matches_spec (env : Env) (q : string) (info : Entry) :
  name_matches env q info = true
  <-> Str.substring_of (str_lower env q) (str_lower env (name info)).
Proof. unfold name_matches. apply StrFacts.contains_spec. Qed.

Lemma find_matches_spec (env : Env) (q : string) (b : Bucket)
    (item : string * Entry) :
  In item (find_matches env q b)
  <-> In item (Dict.items b)
      /\ Str.substring_of (str_lower env q)
           (str_lower env (name (snd item))).
Proof.
  unfold find_matches. rewrite filter_In, name_matches_spec. reflexivity.
Qed.

(** On names and queries of code points below 128 the filter is the
    search of the query, with A to Z turned to a to z, in the name
    treated alike. *)
Lemma name_matches_ascii (env : Env) (q : string) (info : Entry) :
  folds_ascii (str_lower env) ->
  Str.is_ascii q = true ->
  Str.is_ascii (name info) = true ->
  name_matches env q info
  = Str.contains (Str.lower q) (Str.lower (name info)).
Proof.
  intros Hfold Hq Hn. unfold name_matches.
  rewrite (Hfold q Hq), (Hfold (name info) Hn). reflexivity.
Qed.

End FilterFacts.

(** C8: the filter of [uninstall] and of [update] keeps an entry exactly
    when the lowercased query occurs inside the lowercased display name,
    whatever [str.lower] does to a text. As far as [str.lower] turns A to
    Z into a to z in the texts of code points below 128, which Python's
    does, the filter is on such texts the search of the folded query in
    the folded name: "opti", "OPTI" and "fine" select the entry named
    "OptiFine", which a case-sensitive search for "opti" or a test for
    equality would not select, while "sodium" and "optifine2" do not
    select it; and two queries that differ by letter case only select the
    same entries. *)
Theorem name_filter_is_case_insensitive_substring (env : Env) :
  (forall (q : string) (info : Entry),
      name_matches env q info = true
      <-> Str.substring_of (str_lower env q) (str_lower env (name info)))
  /\ (forall (q : string) (b : Bucket) (item : string * Entry),
         In item (find_matches env q b)
         <-> In item (Dict.items b)
             /\ Str.substring_of (str_lower env q)
                  (str_lower env (name (snd item))))
  /\ (forall (q : string) (b : Bucket) (item : string * Entry),
         str_lower env "" = "" ->
         (exists items,
             items_to_check env (Some q) b = Some items /\ In item items)
         <-> In item (Dict.items b)
             /\ Str.substring_of (str_lower env q)
                  (str_lower env (name (snd item))))
  /\ (folds_ascii (str_lower env) ->
      (forall (q : string) (info : Entry),
          Str.is_ascii q = true ->
          Str.is_ascii (name info) = true ->
          name_matches env q info
          = Str.contains (Str.lower q) (Str.lower (name info)))
      /\ (forall (q q' : string) (info : Entry),
             Str.is_ascii q = true ->
             Str.is_ascii q' = true ->
             Str.lower q = Str.lower q' ->
             name_matches env q info = name_matches env q' info)
      /\ name_matches env "opti" Sample.optifine_installed = true
      /\ name_matches env "OPTI" Sample.optifine_installed = true
      /\ name_matches env "fine" Sample.optifine_installed = true
      /\ name_matches env "sodium" Sample.optifine_installed = false
      /\ name_matches env "optifine2" Sample.optifine_installed = false
      /\ find_matches env "IUM" (mods Sample.ledger)
         = [("AANobbMI", Sample.sodium_installed);
            ("gvQqBUqZ", Sample.lithium_installed)])
  /\ Str.contains "opti" (name Sample.optifine_installed) = false
  /\ "opti" <> name Sample.optifine_installed.
Proof.
  split; [exact (FilterFacts.name_matches_spec env)|].
  split; [exact (FilterFacts.find_matches_spec env)|].
  split; [|split; [|split; [reflexivity|discriminate]]].
  - intros q b item Hempty. unfold items_to_check.
    destruct q as [|c q]; cbn [Str.truthy].
    + split.
      * intros (items & [= <-] & Hin). split; [exact Hin|].
        rewrite Hempty. apply StrFacts.substring_of_empty.
      * intros [Hin _]. exists (Dict.items b).
        split; [reflexivity|exact Hin].
    + rewrite <- FilterFacts.find_matches_spec.
      destruct (find_matches env (String c q) b) as [|m ms].
      * split; [intros (items & [=] & _)|intros []].
      * split.
        -- intros (items & [= <-] & Hin). exact Hin.
        -- intros Hin. exists (m :: ms). split; [reflexivity|exact Hin].
  - intros Hfold.
    split; [intros q info; apply FilterFacts.name_matches_ascii; exact Hfold|].
    split.
    { intros q q' info Hq Hq' Heq. unfold name_matches.
      rewrite (Hfold q Hq), (Hfold q' Hq'), Heq. reflexivity. }
    repeat split;
      try (rewrite FilterFacts.name_matches_ascii by (exact Hfold || reflexivity);
           reflexivity).
    unfold find_matches, Dict.items. cbn [mods Sample.ledger filter snd].
    repeat (rewrite FilterFacts.name_matches_ascii
              by (exact Hfold || reflexivity)).
    reflexivity.
Qed.

Lemma name_filter_is_case_insensitive_substring_witness :
  folds_ascii (str_lower Sample.env)
  /\ find_matches Sample.env "IUM" (mods Sample.ledger)
     = [("AANobbMI", Sample.sodium_installed);
        ("gvQqBUqZ", Sample.lithium_installed)]
  /\ name_matches Sample.env "sodium" Sample.optifine_installed = false.
Proof.
  assert (Hfold : folds_ascii (str_lower Sample.env))
    by (intros s _; reflexivity).
  split; [exact Hfold|].
  destruct (name_filter_is_case_insensitive_substring Sample.env)
    as (_ & _ & _ & Hascii & _).
  destruct (Hascii Hfold) as (_ & _ & _ & _ & _ & Hno & _ & Hfind).
  split; [exact Hfind|exact Hno].
Defined.

(** ** The buckets of the other content types *)

Module FrameFacts.

Section Keeps.

Variable R : State -> State -> Prop.
Hypothesis R_refl : forall s, R s s.
Hypothesis R_trans : forall a b c, R a b -> R b c -> R a c.

Lemma keeps_ret {A : Type} (x : A) : keeps R (ret x).
Proof. intros s. apply R_refl. Qed.

Lemma keeps_bind {A B : Type} (m : M A) (k : A -> M B) :
  keeps R m -> (forall x, keeps R (k x)) -> keeps R (bind m k).
Proof.
  intros Hm Hk s. unfold bind. specialize (Hm s).
  destruct (m s) as [x s1]. simpl in Hm.
  apply (R_trans _ s1); [exact Hm|apply Hk].
Qed.

Lemma keeps_for_each {X : Type} (body : X -> M unit) (xs : list X) :
  (forall x, keeps R (body x)) -> keeps R (for_each body xs).
Proof.
  intros Hbody. induction xs as [|x xs IH]; simpl.
  - apply keeps_ret.
  - apply keeps_bind; [apply Hbody|intros _; exact IH].
Qed.

End Keeps.

Section OtherBuckets.

Variable ct : ContentType.

Lemma same_other_refl (s : State) : same_other_buckets ct s s.
Proof. intros ct' _. reflexivity. Qed.

Lemma same_other_trans (a b c : State) :
  same_other_buckets ct a b -> same_other_buckets ct b c ->
  same_other_buckets ct a c.
Proof.
  intros Hab Hbc ct' Hne. rewrite (Hbc ct' Hne). exact (Hab ct' Hne).
Qed.

(** A computation that leaves the ledger alone leaves every bucket. *)
Lemma ledger_untouched {A : Type} (m : M A) :
  (forall s, installed_content (snd (m s)) = installed_content s) ->
  keeps (same_other_buckets ct) m.
Proof. intros H s ct' _. rewrite H. reflexivity. Qed.

Lemma emit_keeps (e : Event) : keeps (same_other_buckets ct) (emit e).
Proof. apply ledger_untouched. reflexivity. Qed.

Lemma print_keeps (m : Msg) : keeps (same_other_buckets ct) (print m).
Proof. apply emit_keeps. Qed.

Lemma get_installed_content_keeps :
  keeps (same_other_buckets ct) get_installed_content.
Proof. apply ledger_untouched. reflexivity. Qed.

Lemma read_file_keeps (l : Loc) : keeps (same_other_buckets ct) (read_file l).
Proof. apply ledger_untouched. reflexivity. Qed.

Lemma file_exists_keeps (l : Loc) :
  keeps (same_other_buckets ct) (file_exists l).
Proof. apply ledger_untouched. reflexivity. Qed.

Lemma write_file_keeps (l : Loc) (c : string) :
  keeps (same_other_buckets ct) (write_file l c).
Proof. apply ledger_untouched. reflexivity. Qed.

Lemma remove_file_keeps (l : Loc) :
  keeps (same_other_buckets ct) (remove_file l).
Proof. apply ledger_untouched. reflexivity. Qed.

Lemma content_dict_setitem_keeps (pid : string) (e : Entry) :
  keeps (same_other_buckets ct) (content_dict_setitem ct pid e).
Proof.
  intros s ct' Hne. step. apply LedgerFacts.get_set_other. exact Hne.
Qed.

Lemma content_dict_delitem_keeps (pid : string) :
  keeps (same_other_buckets ct) (content_dict_delitem ct pid).
Proof.
  intros s ct' Hne. step. apply LedgerFacts.get_set_other. exact Hne.
Qed.

End OtherBuckets.

(** Walks a computation: a primitive is closed by its lemma, a bind
    splits in two, a branch is taken both ways. The two writes to a
    bucket come first: they are binds themselves, and splitting them
    would forget which ledger they write back. *)
Ltac walk ct :=
  cbv zeta;
  repeat first
    [ apply content_dict_setitem_keeps
    | apply content_dict_delitem_keeps
    | apply emit_keeps
    | apply print_keeps
    | apply get_installed_content_keeps
    | apply read_file_keeps
    | apply file_exists_keeps
    | apply write_file_keeps
    | apply remove_file_keeps
    | apply (keeps_ret (same_other_buckets ct) (same_other_refl ct))
    | apply (keeps_bind (same_other_buckets ct) (same_other_trans ct));
      [|intros ?]
    | match goal with
      | |- keeps _ (match ?x with _ => _ end) => destruct x
      end ].

Lemma install_keeps (env : Env) (pid : string) (ct : ContentType)
    (gv : option string) :
  keeps (same_other_buckets ct) (install env pid ct gv).
Proof.
  unfold install, get_project, get_versions, download_file,
    _save_installed_content.
  walk ct.
Qed.

Lemma uninstall_entry_keeps (env : Env) (ct : ContentType) (pid : string)
    (info : Entry) :
  keeps (same_other_buckets ct) (uninstall_entry env ct pid info).
Proof.
  unfold uninstall_entry, _save_installed_content.
  walk ct.
Qed.

Lemma update_item_keeps (env : Env) (ct : ContentType)
    (item : string * Entry) :
  keeps (same_other_buckets ct) (update_item env ct item).
Proof.
  destruct item as [pid info].
  unfold update_item, get_versions, download_file,
    _save_installed_content.
  walk ct.
Qed.

Lemma uninstall_keeps (env : Env) (q : string) (ct : ContentType)
    (selection : option Z) :
  keeps (same_other_buckets ct) (uninstall env q ct selection).
Proof.
  unfold uninstall, content_dict.
  apply (keeps_bind (same_other_buckets ct) (same_other_trans ct));
    [walk ct|intros b; cbv zeta].
  destruct (find_matches env q b) as [|[p1 i1] [|m2 ms]].
  - walk ct.
  - apply uninstall_entry_keeps.
  - apply (keeps_bind (same_other_buckets ct) (same_other_trans ct));
      [apply print_keeps|intros _].
    apply (keeps_bind (same_other_buckets ct) (same_other_trans ct));
      [|intros _].
    + apply (keeps_for_each (same_other_buckets ct)
               (same_other_refl ct) (same_other_trans ct)).
      intros line. apply print_keeps.
    + destruct selection as [k|]; [|walk ct].
      destruct (_ && _)%bool; [|walk ct].
      destruct (nth_error _ _) as [[pid info]|]; [|walk ct].
      apply uninstall_entry_keeps.
Qed.

Lemma update_type_keeps (env : Env) (ct : ContentType)
    (q : option string) :
  keeps (same_other_buckets ct) (update_type env ct q).
Proof.
  unfold update_type, content_dict.
  apply (keeps_bind (same_other_buckets ct) (same_other_trans ct));
    [walk ct|intros b].
  destruct (items_to_check env q b) as [[|item items]|]; [walk ct| |walk ct].
  apply (keeps_bind (same_other_buckets ct) (same_other_trans ct));
    [walk ct|intros _].
  apply (keeps_for_each (same_other_buckets ct)
           (same_other_refl ct) (same_other_trans ct)).
  apply update_item_keeps.
Qed.

End FrameFacts.

(** C10: [install], [uninstall] and [update] on one content type leave
    the buckets of the two other content types as they were. *)
Theorem operations_leave_other_buckets
    (env : Env) (ct ct' : ContentType) (s : State) :
  ct' <> ct ->
  (forall (project_id : string) (gv : option string),
      get_content_dict ct'
        (installed_content (exec (install env project_id ct gv) s))
      = get_content_dict ct' (installed_content s))
  /\ (forall (name_query : string) (selection : option Z),
         get_content_dict ct'
           (installed_content (exec (uninstall env name_query ct selection) s))
         = get_content_dict ct' (installed_content s))
  /\ (forall name_query : option string,
         get_content_dict ct'
           (installed_content (exec (update env (Some ct) name_query) s))
         = get_content_dict ct' (installed_content s)).
Proof.
  intros Hne. split; [|split].
  - intros pid gv. exact (FrameFacts.install_keeps env pid ct gv s ct' Hne).
  - intros q sel. exact (FrameFacts.uninstall_keeps env q ct sel s ct' Hne).
  - intros q. exact (FrameFacts.update_type_keeps env ct q s ct' Hne).
Qed.

Lemma operations_leave_other_buckets_witness :
  resourcepacks
    (installed_content
       (exec (update Sample.env (Some MOD) None) Sample.state))
  = [("faithful", Sample.faithful_installed)].
Proof.
  destruct (operations_leave_other_buckets
              Sample.env MOD RESOURCE_PACK Sample.state
              ltac:(discriminate))
    as (_ & _ & Hupdate).
  exact (Hupdate None).
Defined.

(** * Further properties of the code *)

(** ** Helpers *)

(** Closes a goal about the downloads, writes or removals of a trace
    built by appends. *)
Ltac traces :=
  repeat rewrite TraceFacts.downloads_app;
  repeat rewrite TraceFacts.writes_app;
  repeat rewrite TraceFacts.removals_app;
  simpl; rewrite ?app_nil_r; reflexivity.

Module DictFacts.

Lemma get_setitem_other {V : Type} (k k' : string) (v : V) (d : Dict.t V) :
  k' <> k -> Dict.get k' (Dict.setitem k v d) = Dict.get k' d.
Proof.
  intros Hne. induction d as [|[k0 v0] d IH]; simpl.
  - destruct (String.eqb_spec k k'); [congruence|reflexivity].
  - destruct (String.eqb_spec k0 k) as [->|Hk0]; simpl.
    + destruct (String.eqb_spec k k'); [congruence|].
      destruct (String.eqb_spec k k'); [congruence|reflexivity].
    + destruct (String.eqb_spec k0 k'); [reflexivity|exact IH].
Qed.

Lemma get_delitem_other {V : Type} (k k' : string) (d : Dict.t V) :
  k' <> k -> Dict.get k' (Dict.delitem k d) = Dict.get k' d.
Proof.
  intros Hne. induction d as [|[k0 v0] d IH]; simpl.
  - reflexivity.
  - destruct (String.eqb_spec k0 k) as [->|Hk0]; simpl.
    + destruct (String.eqb_spec k k'); [congruence|reflexivity].
    + destruct (String.eqb_spec k0 k'); [reflexivity|exact IH].
Qed.

(** Assigning to a key that is present keeps the keys and their order. *)
Lemma setitem_keys_present {V : Type} (k : string) (v : V) (d : Dict.t V) :
  In k (map fst d) -> map fst (Dict.setitem k v d) = map fst d.
Proof.
  induction d as [|[k0 v0] d IH]; simpl; intros Hin.
  - destruct Hin.
  - destruct (String.eqb_spec k0 k) as [->|Hk0]; simpl.
    + reflexivity.
    + f_equal. apply IH. destruct Hin as [Heq|Hin]; [congruence|exact Hin].
Qed.

(** Assigning to a key that is absent appends it. *)
Lemma setitem_keys_absent {V : Type} (k : string) (v : V) (d : Dict.t V) :
  ~ In k (map fst d) -> map fst (Dict.setitem k v d) = map fst d ++ [k].
Proof.
  induction d as [|[k0 v0] d IH]; simpl; intros Hnot.
  - reflexivity.
  - destruct (String.eqb_spec k0 k) as [->|Hk0].
    + exfalso. apply Hnot. left. reflexivity.
    + simpl. f_equal. apply IH. intros Hin. apply Hnot. right. exact Hin.
Qed.

Lemma setitem_nodup {V : Type} (k : string) (v : V) (d : Dict.t V) :
  NoDup (map fst d) -> NoDup (map fst (Dict.setitem k v d)).
Proof.
  intros Hnd. destruct (in_dec string_dec k (map fst d)) as [Hin|Hnot].
  - rewrite setitem_keys_present by exact Hin. exact Hnd.
  - rewrite setitem_keys_absent by exact Hnot.
    apply NoDup_app; [exact Hnd|constructor; [intros []|constructor]|].
    intros x Hx [<-|[]]. exact (Hnot Hx).
Qed.

Lemma delitem_nodup {V : Type} (k : string) (d : Dict.t V) :
  NoDup (map fst d) -> NoDup (map fst (Dict.delitem k d)).
Proof.
  induction d as [|[k0 v0] d IH]; simpl; intros Hnd.
  - constructor.
  - inversion Hnd as [|? ? Hnot Hnd']; subst.
    destruct (String.eqb k0 k); [exact Hnd'|].
    simpl. constructor; [|exact (IH Hnd')].
    intros Hin. apply Hnot.
    exact (LedgerFacts.delitem_keys_subset k k0 d Hin).
Qed.


End DictFacts.

Module InstallFacts.

Lemma install_target_some (env : Env) (pid : string) (gv : option string)
    (project : Project) (version : Version) (f : File) :
  install_target env pid gv = Some (project, version, f) ->
  exists rest,
    http_project env pid = Ok project
    /\ http_versions env pid (versions_params gv) = Ok (version :: rest)
    /\ primary_file (files version) = Some f.
Proof.
  unfold install_target.
  destruct (http_project env pid) as [p|]; [|discriminate].
  destruct (http_versions env pid _) as [[|v vs]|]; try discriminate.
  destruct (primary_file (files v)) as [g|] eqn:Hf; [|discriminate].
  intros [= -> -> ->]. exists vs. repeat split. exact Hf.
Qed.

(** The state a successful [install] leaves. *)
Lemma install_success (env : Env) (s : State) (pid : string)
    (ct : ContentType) (gv : option string) (project : Project)
    (version : Version) (f : File) (body : string) :
  install_target env pid gv = Some (project, version, f) ->
  http_download env (file_url f) = Downloaded body ->
  let destination :=
    path_join env (get_content_path env ct) (file_filename f) in
  let l' :=
    set_content_dict ct
      (Dict.setitem pid
         {| name := title project;
            version := version_number version;
            filename := file_filename f;
            installed_at := date_published version |}
         (get_content_dict ct (installed_content s)))
      (installed_content s) in
  exec (install env pid ct gv) s
  = {| installed_content := l';
       disk := FS.write (config_loc env) (json_dump env l')
                 (FS.write (locate env destination) body (disk s));
       trace :=
         trace s
         ++ [EPrint (Installing (title project));
             EPrint (Downloading (file_filename f));
             EDownload (file_url f) destination;
             EPrint (SuccessfullyInstalled (title project) destination);
             EWriteConfig (json_dump env l')] |}.
Proof.
  intros Ht Hdl destination l'.
  destruct (install_target_some _ _ _ _ _ _ Ht) as (rest & H1 & H2 & H3).
  unfold install. step. rewrite H1, H2, H3, Hdl. step.
  flat. reflexivity.
Qed.

End InstallFacts.

(** ** install, further *)

(** X1: when the project, a version and a file are found and the download
    succeeds, [install] records the entry under the project id with the
    project title, the version label, the file name and the publish
    timestamp of that version, the file exists in the directory of the
    content type and holds what was downloaded (unless its name led to
    the configuration file), the configuration file holds the new ledger,
    and nothing was deleted. *)
Theorem install_success_records_entry
    (env : Env) (s : State) (project_id : string) (ct : ContentType)
    (gv : option string) (project : Project) (version : Version) (f : File)
    (body : string) :
  install_target env project_id gv = Some (project, version, f) ->
  http_download env (file_url f) = Downloaded body ->
  let destination :=
    path_join env (get_content_path env ct) (file_filename f) in
  Dict.get project_id
    (get_content_dict ct
       (installed_content (exec (install env project_id ct gv) s)))
  = Some {| name := title project;
            version := version_number version;
            filename := file_filename f;
            installed_at := date_published version |}
  /\ in_sync env (exec (install env project_id ct gv) s)
  /\ exists_at env destination (exec (install env project_id ct gv) s)
     = true
  /\ (locate env destination <> config_loc env ->
      FS.read (locate env destination)
        (disk (exec (install env project_id ct gv) s))
      = Some body)
  /\ removals (trace (exec (install env project_id ct gv) s))
     = removals (trace s)
  /\ writes (trace (exec (install env project_id ct gv) s))
     = writes (trace s)
       ++ [json_dump env
             (installed_content (exec (install env project_id ct gv) s))].
Proof.
  intros Ht Hdl destination.
  rewrite (InstallFacts.install_success env s _ ct _ _ _ _ body Ht Hdl).
  unfold in_sync, config_file, exists_at.
  cbn [installed_content disk trace].
  split; [|split; [|split; [|split; [|split]]]].
  - rewrite LedgerFacts.get_set_same. apply LedgerFacts.get_setitem.
  - apply FSFacts.read_write_same.
  - apply FSFacts.exists_write_grows, FSFacts.exists_write_same.
  - intros Hloc. rewrite FSFacts.read_write_other by exact Hloc.
    apply FSFacts.read_write_same.
  - traces.
  - traces.
Qed.

Lemma install_success_records_entry_witness :
  Dict.get "AANobbMI"
    (mods (installed_content
             (exec (install Sample.env "AANobbMI" MOD (Some "1.20"))
                Sample.fresh)))
  = Some {| name := "Sodium"; version := "0.5.8";
            filename := "sodium-0.5.8.jar";
            installed_at := "2024-02-01T10:00:00Z" |}.
Proof.
  destruct (install_success_records_entry
              Sample.env Sample.fresh "AANobbMI" MOD (Some "1.20")
              {| title := "Sodium" |} Sample.sodium_058 Sample.sodium_jar
              "bytes of https://cdn.example/sodium-0.5.8.jar"
              eq_refl eq_refl)
    as (Hget & _).
  exact Hget.
Defined.

(** X2: when the project cannot be fetched, or no version comes back, or
    the first version has no file, [install] stops before any download:
    ledger, configuration file and disk are what they were and nothing is
    downloaded, written or deleted. *)
Theorem install_without_target_changes_nothing
    (env : Env) (s : State) (project_id : string) (ct : ContentType)
    (gv : option string) :
  install_target env project_id gv = None ->
  only_trace s (exec (install env project_id ct gv) s)
  /\ downloads (trace (exec (install env project_id ct gv) s))
     = downloads (trace s)
  /\ writes (trace (exec (install env project_id ct gv) s))
     = writes (trace s)
  /\ removals (trace (exec (install env project_id ct gv) s))
     = removals (trace s).
Proof.
  unfold install_target, install, only_trace. step.
  destruct (http_project env project_id) as [p|e]; step.
  - destruct (http_versions env project_id _) as [[|v vs]|e]; step.
    + intros _. repeat split; traces.
    + destruct (primary_file (files v)); [discriminate|]. intros _. step.
      repeat split; traces.
    + intros _. repeat split; traces.
  - intros _. repeat split; traces.
Qed.

Lemma install_without_target_changes_nothing_witness :
  only_trace Sample.state
    (exec (install Sample.env "unknown" MOD None) Sample.state).
Proof.
  destruct (install_without_target_changes_nothing
              Sample.env Sample.state "unknown" MOD None eq_refl)
    as (H & _).
  exact H.
Defined.

(** ** Relations every operation keeps *)

Module OpsFacts.

(** Walks a computation: [prim] closes what it can, a bind splits in two,
    a branch is taken both ways. *)
Ltac walk_by R Rtrans prim :=
  cbv zeta;
  repeat first
    [ prim
    | apply (FrameFacts.keeps_bind R Rtrans); [|intros ?]
    | match goal with
      | |- keeps _ (match ?x with _ => _ end) => destruct x
      end ].

Lemma keeps_for_each_in {X : Type} (R : State -> State -> Prop)
    (body : X -> M unit) (xs : list X) :
  (forall s, R s s) ->
  (forall a b c, R a b -> R b c -> R a c) ->
  (forall x, In x xs -> keeps R (body x)) ->
  keeps R (for_each body xs).
Proof.
  intros Hrefl Htrans. induction xs as [|x xs IH]; simpl; intros Hbody.
  - apply (FrameFacts.keeps_ret R Hrefl).
  - apply (FrameFacts.keeps_bind R Htrans).
    + apply Hbody. left. reflexivity.
    + intros _. apply IH. intros y Hy. apply Hbody. right. exact Hy.
Qed.

Lemma items_to_check_In (env : Env) (q : option string) (b : Bucket)
    (items : list (string * Entry)) (item : string * Entry) :
  items_to_check env q b = Some items -> In item items -> In item b.
Proof.
  unfold items_to_check. intros H Hin.
  assert (Hsub : In item (find_matches env match q with Some x => x | None => "" end b)
                 -> In item b)
    by (unfold find_matches; rewrite filter_In; tauto).
  destruct q as [x|].
  - destruct (Str.truthy x).
    + destruct (find_matches env x b) eqn:E; [discriminate|].
      injection H as <-. apply Hsub. exact Hin.
    + injection H as <-. exact Hin.
  - injection H as <-. exact Hin.
Qed.

Section Operations.

Variable env : Env.
Variable R : State -> State -> Prop.
Hypothesis R_quiet : forall s s', only_trace s s' -> R s s'.
Hypothesis R_trans : forall a b c, R a b -> R b c -> R a c.

Lemma R_refl (s : State) : R s s.
Proof. apply R_quiet. repeat split. Qed.

Lemma quiet_keeps {A : Type} (m : M A) :
  (forall s, only_trace s (snd (m s))) -> keeps R m.
Proof. intros H s. apply R_quiet. apply H. Qed.

Lemma ops_print_keeps (m : Msg) : keeps R (print m).
Proof. apply quiet_keeps. intros s. repeat split. Qed.

Lemma content_dict_keeps (ct : ContentType) : keeps R (content_dict ct).
Proof. apply quiet_keeps. intros s. repeat split. Qed.

Lemma get_project_keeps (pid : string) : keeps R (get_project env pid).
Proof.
  apply quiet_keeps. intros s. unfold get_project.
  destruct (http_project env pid); repeat split.
Qed.

Lemma get_versions_keeps (pid : string) (gv : option string) :
  keeps R (get_versions env pid gv).
Proof.
  apply quiet_keeps. intros s. unfold get_versions.
  destruct (http_versions env pid _); repeat split.
Qed.

(** [uninstall] keeps what its tail keeps. *)
Lemma ops_uninstall_keeps (ct : ContentType) :
  (forall pid info, keeps R (uninstall_entry env ct pid info)) ->
  forall q selection, keeps R (uninstall env q ct selection).
Proof.
  intros Hentry q selection. unfold uninstall.
  apply (FrameFacts.keeps_bind R R_trans);
    [apply content_dict_keeps|intros b; cbv zeta].
  destruct (find_matches env q b) as [|[p1 i1] [|m2 ms]].
  - apply ops_print_keeps.
  - apply Hentry.
  - apply (FrameFacts.keeps_bind R R_trans); [apply ops_print_keeps|intros _].
    apply (FrameFacts.keeps_bind R R_trans); [|intros _].
    + apply (FrameFacts.keeps_for_each R R_refl R_trans).
      intros line. apply ops_print_keeps.
    + destruct selection as [k|]; [|apply ops_print_keeps].
      destruct (_ && _)%bool; [|apply (FrameFacts.keeps_ret R R_refl)].
      destruct (nth_error _ _) as [[pid info]|];
        [apply Hentry|apply (FrameFacts.keeps_ret R R_refl)].
Qed.

(** [update] on a content type keeps what its loop body keeps on the
    entries it walks. *)
Lemma ops_update_type_keeps (ct : ContentType) (q : option string) :
  (forall b items item,
      items_to_check env q b = Some items -> In item items ->
      keeps R (update_item env ct item)) ->
  keeps R (update_type env ct q).
Proof.
  intros Hitem. unfold update_type.
  intros s. unfold bind at 1. cbn [content_dict]. step.
  destruct (items_to_check env q _) as [[|item items]|] eqn:E.
  - apply ops_print_keeps.
  - step.
    apply (R_trans _ _ _
             (ops_print_keeps
                (CheckingForUpdates (List.length (item :: items)) ct) s)).
    apply (keeps_for_each_in R _ _ R_refl R_trans).
    intros x Hx. exact (Hitem _ _ x E Hx).
  - apply ops_print_keeps.
Qed.

Lemma ops_update_keeps (content_type : option ContentType) (q : option string) :
  (forall ct item, keeps R (update_item env ct item)) ->
  keeps R (update env content_type q).
Proof.
  intros Hitem. unfold update.
  assert (Htype : forall ct, keeps R (update_type env ct q))
    by (intros ct; apply ops_update_type_keeps; intros; apply Hitem).
  destruct content_type as [ct|]; [apply Htype|].
  apply (FrameFacts.keeps_for_each R R_refl R_trans). exact Htype.
Qed.

End Operations.

End OpsFacts.

(** Splits on the innermost thing the run branches on next. *)
Ltac inner_case :=
  match goal with
  | |- context [match ?x with _ => _ end] =>
      lazymatch x with
      | context [match _ with _ => _ end] => fail
      | _ => destruct x eqn:?
      end
  end.

Ltac run := step; repeat (inner_case; step).

(** ** The configuration file follows the ledger *)

Module PersistFacts.

Lemma persisted_quiet (env : Env) (s s' : State) :
  only_trace s s' -> persisted env s s'.
Proof.
  intros (Hl & Hd). left. split; [exact Hl|].
  unfold config_file. rewrite Hd. reflexivity.
Qed.

Lemma persisted_trans (env : Env) (a b c : State) :
  persisted env a b -> persisted env b c -> persisted env a c.
Proof.
  unfold persisted, ledger_kept, in_sync.
  intros [[Hl1 Hc1]|Hb] [[Hl2 Hc2]|Hc]; try (right; assumption).
  - left. split; congruence.
  - right. congruence.
Qed.

Ltac settle :=
  unfold persisted, ledger_kept, in_sync, config_file;
  cbn [installed_content disk];
  first [ left; split; reflexivity
        | right; apply FSFacts.read_write_same ].

(** A download that breaks off leaves the configuration file alone when
    its destination does not lead to it. *)
Lemma failed_download_persisted (env : Env) (s : State) (l : Loc)
    (written : option string) (t : list Event) :
  l <> config_loc env ->
  persisted env s
    {| installed_content := installed_content s;
       disk := match written with
               | Some bytes => FS.write l bytes (disk s)
               | None => disk s
               end;
       trace := t |}.
Proof.
  intros Hloc. left. split; [reflexivity|].
  unfold config_file. cbn [disk].
  destruct written as [bytes|]; [|reflexivity].
  apply FSFacts.read_write_other. congruence.
Qed.

Lemma install_persisted (env : Env) (pid : string) (ct : ContentType)
    (gv : option string) :
  registry_spares_config env ->
  keeps (persisted env) (install env pid ct gv).
Proof.
  intros Hsafe s. unfold install. step.
  destruct (http_project env pid) as [project|e]; step; [|settle].
  destruct (http_versions env pid (versions_params gv))
    as [[|v vs]|e] eqn:Hv; step; try settle.
  destruct (primary_file (files v)) as [f|] eqn:Hf; step; [|settle].
  assert (Hloc := Hsafe f ct
            (ex_intro _ pid (ex_intro _ (versions_params gv)
               (ex_intro _ v (ex_intro _ vs (conj Hv Hf)))))).
  destruct (http_download env (file_url f)) as [body|e [bytes|]]; step.
  - settle.
  - exact (failed_download_persisted env s _ (Some bytes) _ Hloc).
  - settle.
Qed.

Lemma uninstall_entry_persisted (env : Env) (ct : ContentType)
    (pid : string) (info : Entry) :
  keeps (persisted env) (uninstall_entry env ct pid info).
Proof. intros s. unfold uninstall_entry. run; settle. Qed.

Lemma update_item_persisted (env : Env) (ct : ContentType)
    (item : string * Entry) :
  registry_spares_config env ->
  keeps (persisted env) (update_item env ct item).
Proof.
  intros Hsafe s. destruct item as [pid info]. unfold update_item. step.
  change (versions_params None) with (@None string).
  destruct (http_versions env pid None) as [[|v vs]|e] eqn:Hv; step;
    try settle.
  destruct (String.eqb (version_number v) (version info)); step; [settle|].
  destruct (primary_file (files v)) as [f|] eqn:Hf; step; [|settle].
  assert (Hloc := Hsafe f ct
            (ex_intro _ pid (ex_intro _ None
               (ex_intro _ v (ex_intro _ vs (conj Hv Hf)))))).
  destruct (http_download env (file_url f)) as [body|e [bytes|]]; step.
  - run; settle.
  - exact (failed_download_persisted env s _ (Some bytes) _ Hloc).
  - settle.
Qed.

End PersistFacts.

Module SampleFacts.

(** No file name of the example registry leads to the configuration
    file. *)
Lemma sample_registry_spares_config : registry_spares_config Sample.env.
Proof.
  intros f ct (pid & gv & v & rest & Hv & Hf).
  cbn [http_versions Sample.env] in Hv.
  repeat match type of Hv with
         | (if ?c then _ else _) = _ => destruct c
         end;
    try discriminate;
    injection Hv as <- <-; vm_compute in Hf; injection Hf as <-;
    destruct ct; vm_compute; discriminate.
Qed.

Lemma sample_in_sync : in_sync Sample.env Sample.state.
Proof. reflexivity. Qed.

End SampleFacts.

(** X3: provided no file name the registry offers leads to the
    configuration file, then whatever else the registry, the files and
    the user answer, [install], [uninstall] and [update] (on one content
    type or on all) end in one of two ways: ledger and configuration file
    are what they were, or the configuration file holds the ledger that
    is in memory. *)
Theorem operations_leave_file_and_ledger_together (env : Env) (s : State) :
  registry_spares_config env ->
  (forall project_id ct gv,
      persisted env s (exec (install env project_id ct gv) s))
  /\ (forall name_query ct selection,
         persisted env s (exec (uninstall env name_query ct selection) s))
  /\ (forall content_type name_query,
         persisted env s (exec (update env content_type name_query) s)).
Proof.
  intros Hsafe. split; [|split].
  - intros pid ct gv. apply PersistFacts.install_persisted. exact Hsafe.
  - intros q ct selection.
    apply (OpsFacts.ops_uninstall_keeps env (persisted env)
             (PersistFacts.persisted_quiet env)
             (PersistFacts.persisted_trans env) ct
             (PersistFacts.uninstall_entry_persisted env ct)).
  - intros content_type q.
    apply (OpsFacts.ops_update_keeps env (persisted env)
             (PersistFacts.persisted_quiet env)
             (PersistFacts.persisted_trans env) content_type q).
    intros ct item. apply PersistFacts.update_item_persisted. exact Hsafe.
Qed.

Lemma operations_leave_file_and_ledger_together_witness :
  registry_spares_config Sample.env
  /\ persisted Sample.env Sample.state
       (exec (install Sample.env "YL57xq9U" SHADER_PACK None) Sample.state)
  /\ persisted Sample.env Sample.state
       (exec (update Sample.env None None) Sample.state).
Proof.
  split; [exact SampleFacts.sample_registry_spares_config|].
  destruct (operations_leave_file_and_ledger_together
              Sample.env Sample.state SampleFacts.sample_registry_spares_config)
    as (Hinstall & _ & Hupdate).
  split; [apply Hinstall|apply Hupdate].
Defined.

Module ReloadFacts.

Lemma persisted_in_sync (env : Env) (s s' : State) :
  in_sync env s -> persisted env s s' -> in_sync env s'.
Proof.
  unfold persisted, ledger_kept, in_sync.
  intros Hs [[Hl Hc]|Hs']; [congruence|exact Hs'].
Qed.

Lemma in_sync_reload (env : Env) (s : State) :
  in_sync env s -> reload_agrees env s.
Proof.
  unfold in_sync, config_file, reload_agrees, _load_installed_content.
  intros Hs Hload.
  step. rewrite Hs, Hload. reflexivity.
Qed.

Lemma kept_reload (env : Env) (s : State) (m : M unit) :
  keeps (persisted env) m -> in_sync env s -> reload_agrees env (exec m s).
Proof.
  intros Hm Hs. apply in_sync_reload.
  exact (persisted_in_sync env s _ Hs (Hm s)).
Qed.

End ReloadFacts.

(** X4: provided no file name the registry offers leads to the
    configuration file: starting with a configuration file that holds the
    ledger in memory, after any [install], [uninstall] or [update] a
    restart of the program loads exactly the ledger the run left in
    memory (as far as [json.load] reads back what [json.dump] wrote). *)
Theorem restart_loads_the_ledger_left (env : Env) (s : State) :
  registry_spares_config env ->
  in_sync env s ->
  (forall project_id ct gv,
      reload_agrees env (exec (install env project_id ct gv) s))
  /\ (forall name_query ct selection,
         reload_agrees env (exec (uninstall env name_query ct selection) s))
  /\ (forall content_type name_query,
         reload_agrees env (exec (update env content_type name_query) s)).
Proof.
  intros Hsafe Hs. split; [|split].
  - intros pid ct gv. apply ReloadFacts.kept_reload; [|exact Hs].
    apply PersistFacts.install_persisted. exact Hsafe.
  - intros q ct selection. apply ReloadFacts.kept_reload; [|exact Hs].
    apply (OpsFacts.ops_uninstall_keeps env (persisted env)
             (PersistFacts.persisted_quiet env)
             (PersistFacts.persisted_trans env) ct
             (PersistFacts.uninstall_entry_persisted env ct)).
  - intros content_type q. apply ReloadFacts.kept_reload; [|exact Hs].
    apply (OpsFacts.ops_update_keeps env (persisted env)
             (PersistFacts.persisted_quiet env)
             (PersistFacts.persisted_trans env) content_type q).
    intros ct item. apply PersistFacts.update_item_persisted. exact Hsafe.
Qed.

Lemma restart_loads_the_ledger_left_witness :
  registry_spares_config Sample.env
  /\ in_sync Sample.env Sample.state
  /\ installed_content
       (exec (uninstall Sample.env "opti" MOD None) Sample.state)
     = Sample.ledger_without_optifine
  /\ fst (_load_installed_content Sample.env
            (exec (uninstall Sample.env "opti" MOD None) Sample.state))
     = Returns (LedgerValue Sample.ledger_without_optifine).
Proof.
  split; [exact SampleFacts.sample_registry_spares_config|].
  split; [exact SampleFacts.sample_in_sync|].
  split; [reflexivity|].
  destruct (restart_loads_the_ledger_left Sample.env Sample.state
              SampleFacts.sample_registry_spares_config SampleFacts.sample_in_sync)
    as (_ & Hun & _).
  exact (Hun "opti" MOD None eq_refl).
Defined.

(** ** The ids of a bucket *)

Module UniqueFacts.

Lemma unique_ledger (s s' : State) :
  installed_content s' = installed_content s -> unique_kept s s'.
Proof. intros H Hu ct. unfold keys. rewrite H. apply Hu. Qed.

Lemma unique_quiet (s s' : State) : only_trace s s' -> unique_kept s s'.
Proof. intros (H & _). apply unique_ledger. exact H. Qed.

Lemma unique_trans (a b c : State) :
  unique_kept a b -> unique_kept b c -> unique_kept a c.
Proof. unfold unique_kept. tauto. Qed.

Lemma unique_ledger_only {A : Type} (m : M A) :
  (forall s, installed_content (snd (m s)) = installed_content s) ->
  keeps unique_kept m.
Proof. intros H s. apply unique_ledger. apply H. Qed.

Lemma unique_setitem_keeps (ct : ContentType) (pid : string) (e : Entry) :
  keeps unique_kept (content_dict_setitem ct pid e).
Proof.
  intros s Hu ct'. unfold keys. step.
  destruct (ContentType_eq_dec ct' ct) as [->|Hne].
  - rewrite LedgerFacts.get_set_same. apply DictFacts.setitem_nodup. apply Hu.
  - rewrite LedgerFacts.get_set_other by exact Hne. apply Hu.
Qed.

Lemma unique_delitem_keeps (ct : ContentType) (pid : string) :
  keeps unique_kept (content_dict_delitem ct pid).
Proof.
  intros s Hu ct'. unfold keys. step.
  destruct (ContentType_eq_dec ct' ct) as [->|Hne].
  - rewrite LedgerFacts.get_set_same. apply DictFacts.delitem_nodup. apply Hu.
  - rewrite LedgerFacts.get_set_other by exact Hne. apply Hu.
Qed.

Ltac prim :=
  first [ apply unique_setitem_keeps
        | apply unique_delitem_keeps
        | solve [apply unique_ledger_only; intros ?; reflexivity] ].

Lemma unique_install_keeps (env : Env) (pid : string) (ct : ContentType)
    (gv : option string) :
  keeps unique_kept (install env pid ct gv).
Proof.
  unfold install, get_project, get_versions, download_file.
  OpsFacts.walk_by unique_kept unique_trans prim.
Qed.

Lemma unique_uninstall_entry_keeps (env : Env) (ct : ContentType) (pid : string)
    (info : Entry) :
  keeps unique_kept (uninstall_entry env ct pid info).
Proof.
  unfold uninstall_entry.
  OpsFacts.walk_by unique_kept unique_trans prim.
Qed.

Lemma unique_update_item_keeps (env : Env) (ct : ContentType)
    (item : string * Entry) :
  keeps unique_kept (update_item env ct item).
Proof.
  destruct item as [pid info].
  unfold update_item, get_versions, download_file.
  OpsFacts.walk_by unique_kept unique_trans prim.
Qed.

End UniqueFacts.

(** X5: a ledger whose project ids are pairwise different within every
    bucket keeps that property through [install], [uninstall] and
    [update]. *)
Theorem operations_keep_ids_unique (env : Env) (s : State) :
  keys_unique s ->
  (forall project_id ct gv,
      keys_unique (exec (install env project_id ct gv) s))
  /\ (forall name_query ct selection,
         keys_unique (exec (uninstall env name_query ct selection) s))
  /\ (forall content_type name_query,
         keys_unique (exec (update env content_type name_query) s)).
Proof.
  intros Hu. split; [|split].
  - intros pid ct gv. exact (UniqueFacts.unique_install_keeps env pid ct gv s Hu).
  - intros q ct selection.
    exact (OpsFacts.ops_uninstall_keeps env unique_kept
             UniqueFacts.unique_quiet UniqueFacts.unique_trans ct
             (UniqueFacts.unique_uninstall_entry_keeps env ct) q selection s Hu).
  - intros content_type q.
    exact (OpsFacts.ops_update_keeps env unique_kept
             UniqueFacts.unique_quiet UniqueFacts.unique_trans content_type q
             (UniqueFacts.unique_update_item_keeps env) s Hu).
Qed.

Lemma operations_keep_ids_unique_witness :
  keys_unique Sample.state
  /\ keys_unique (exec (install Sample.env "AANobbMI" MOD None) Sample.state).
Proof.
  assert (Hu : keys_unique Sample.state).
  { intros [| |]; vm_compute; repeat constructor; simpl; intuition discriminate. }
  split; [exact Hu|].
  destruct (operations_keep_ids_unique Sample.env Sample.state Hu)
    as (Hin & _).
  exact (Hin "AANobbMI" MOD None).
Defined.

Module KeysFacts.

Lemma kept_refl (s : State) : keys_kept s s.
Proof. intros ct. reflexivity. Qed.

Lemma kept_trans (a b c : State) :
  keys_kept a b -> keys_kept b c -> keys_kept a c.
Proof. intros Hab Hbc ct. rewrite (Hbc ct). apply Hab. Qed.

Lemma kept_for_trans (pid : string) (ct : ContentType) (a b c : State) :
  keys_kept_for pid ct a b -> keys_kept_for pid ct b c ->
  keys_kept_for pid ct a c.
Proof.
  intros Hab Hbc Hin. apply (kept_trans a b c (Hab Hin)).
  apply Hbc. rewrite (Hab Hin ct). exact Hin.
Qed.

Lemma keys_ledger_only {A : Type} (pid : string) (ct : ContentType) (m : M A) :
  (forall s, installed_content (snd (m s)) = installed_content s) ->
  keeps (keys_kept_for pid ct) m.
Proof. intros H s _ ct'. unfold keys. rewrite H. reflexivity. Qed.

Lemma keys_setitem_keeps (ct : ContentType) (pid : string) (e : Entry) :
  keeps (keys_kept_for pid ct) (content_dict_setitem ct pid e).
Proof.
  intros s Hin ct'. unfold keys in *. step.
  destruct (ContentType_eq_dec ct' ct) as [->|Hne].
  - rewrite LedgerFacts.get_set_same.
    apply DictFacts.setitem_keys_present. exact Hin.
  - rewrite LedgerFacts.get_set_other by exact Hne. reflexivity.
Qed.

Ltac prim :=
  first [ apply keys_setitem_keeps
        | solve [apply keys_ledger_only; intros ?; reflexivity] ].

Lemma keys_update_item_keeps (env : Env) (ct : ContentType) (pid : string)
    (info : Entry) :
  keeps (keys_kept_for pid ct) (update_item env ct (pid, info)).
Proof.
  unfold update_item, get_versions, download_file.
  OpsFacts.walk_by (keys_kept_for pid ct) (kept_for_trans pid ct) prim.
Qed.

(** The loop of [update] over entries whose ids are in the bucket. *)
Lemma loop_keeps (env : Env) (ct : ContentType)
    (items : list (string * Entry)) :
  forall s,
    (forall item, In item items -> In (fst item) (keys ct s)) ->
    keys_kept s (exec (for_each (update_item env ct) items) s).
Proof.
  induction items as [|[pid info] items IH]; intros s Hin.
  - apply kept_refl.
  - unfold exec. cbn [for_each]. unfold bind at 1.
    assert (H1 : keys_kept s (snd (update_item env ct (pid, info) s))).
    { apply keys_update_item_keeps. apply (Hin (pid, info)). left. reflexivity. }
    destruct (update_item env ct (pid, info) s) as [[] s1]. simpl in H1.
    apply (kept_trans s s1); [exact H1|].
    apply IH. intros item Hitem. rewrite (H1 ct).
    apply Hin. right. exact Hitem.
Qed.

Lemma keys_update_type_keeps (env : Env) (ct : ContentType) (q : option string) :
  keeps keys_kept (update_type env ct q).
Proof.
  intros s. unfold update_type. step.
  destruct (items_to_check env q _) as [[|item items]|] eqn:E.
  - intros ct'. reflexivity.
  - step.
    set (s1 := {| installed_content := installed_content s;
                  disk := disk s;
                  trace := _ |}).
    apply (kept_trans s s1); [intros ct'; reflexivity|].
    apply loop_keeps. intros x Hx.
    apply in_map. exact (OpsFacts.items_to_check_In env q _ _ x E Hx).
  - intros ct'. reflexivity.
Qed.

End KeysFacts.

(** X6: [update], on one content type or on all, with or without a name
    filter, never adds or removes an entry: every bucket has the project
    ids it had, in the same order. *)
Theorem update_keeps_the_ids_of_every_bucket
    (env : Env) (s : State) (content_type : option ContentType)
    (name_query : option string) (ct : ContentType) :
  map fst
    (get_content_dict ct
       (installed_content (exec (update env content_type name_query) s)))
  = map fst (get_content_dict ct (installed_content s)).
Proof.
  assert (H : keeps keys_kept (update env content_type name_query)).
  { unfold update. destruct content_type as [c|].
    - apply KeysFacts.keys_update_type_keeps.
    - apply (FrameFacts.keeps_for_each keys_kept
               KeysFacts.kept_refl KeysFacts.kept_trans).
      intros c. apply KeysFacts.keys_update_type_keeps. }
  exact (H s ct).
Qed.

(** ** The other entries of a bucket *)

Module EntryFacts.

Section Kept.

Variable pid' : string.
Variable ct : ContentType.

Lemma entry_quiet (s s' : State) :
  only_trace s s' -> entry_kept pid' ct s s'.
Proof. intros (H & _). unfold entry_kept. rewrite H. reflexivity. Qed.

Lemma entry_trans (a b c : State) :
  entry_kept pid' ct a b -> entry_kept pid' ct b c -> entry_kept pid' ct a c.
Proof. unfold entry_kept. congruence. Qed.

Lemma entry_ledger_only {A : Type} (m : M A) :
  (forall s, installed_content (snd (m s)) = installed_content s) ->
  keeps (entry_kept pid' ct) m.
Proof. intros H s. unfold entry_kept. rewrite H. reflexivity. Qed.

Lemma entry_setitem_keeps (pid : string) (e : Entry) :
  pid' <> pid ->
  keeps (entry_kept pid' ct) (content_dict_setitem ct pid e).
Proof.
  intros Hne s. unfold entry_kept. step.
  rewrite LedgerFacts.get_set_same.
  apply DictFacts.get_setitem_other. exact Hne.
Qed.

End Kept.

Ltac prim Hne :=
  first [ apply entry_setitem_keeps; exact Hne
        | solve [apply entry_ledger_only; intros ?; reflexivity] ].

Lemma entry_install_keeps (env : Env) (pid pid' : string) (ct : ContentType)
    (gv : option string) :
  pid' <> pid -> keeps (entry_kept pid' ct) (install env pid ct gv).
Proof.
  intros Hne.
  unfold install, get_project, get_versions, download_file.
  OpsFacts.walk_by (entry_kept pid' ct) (entry_trans pid' ct) ltac:(prim Hne).
Qed.

Lemma entry_update_item_keeps (env : Env) (pid pid' : string) (ct : ContentType)
    (info : Entry) :
  pid' <> pid -> keeps (entry_kept pid' ct) (update_item env ct (pid, info)).
Proof.
  intros Hne.
  unfold update_item, get_versions, download_file.
  OpsFacts.walk_by (entry_kept pid' ct) (entry_trans pid' ct) ltac:(prim Hne).
Qed.

End EntryFacts.

(** X7: [install] of a project, whether it succeeds or fails, leaves the
    entry of every other project id of the bucket as it was. *)
Theorem install_leaves_other_entries
    (env : Env) (s : State) (project_id other : string) (ct : ContentType)
    (gv : option string) :
  other <> project_id ->
  Dict.get other
    (get_content_dict ct
       (installed_content (exec (install env project_id ct gv) s)))
  = Dict.get other (get_content_dict ct (installed_content s)).
Proof.
  intros Hne. exact (EntryFacts.entry_install_keeps env project_id other ct gv Hne s).
Qed.

Lemma install_leaves_other_entries_witness :
  Dict.get "gvQqBUqZ"
    (mods (installed_content
             (exec (install Sample.env "AANobbMI" MOD None) Sample.state)))
  = Some Sample.lithium_installed.
Proof.
  exact (install_leaves_other_entries Sample.env Sample.state
           "AANobbMI" "gvQqBUqZ" MOD None ltac:(discriminate)).
Defined.

(** X8: [update] with a name filter leaves the entry of every project id
    that is not among the entries it walks as it was. *)
Theorem update_leaves_unselected_entries
    (env : Env) (s : State) (ct : ContentType) (name_query : option string)
    (other : string) :
  (forall items,
      items_to_check env name_query (get_content_dict ct (installed_content s))
      = Some items ->
      ~ In other (map fst items)) ->
  Dict.get other
    (get_content_dict ct
       (installed_content (exec (update env (Some ct) name_query) s)))
  = Dict.get other (get_content_dict ct (installed_content s)).
Proof.
  intros Hout. unfold update, update_type, exec. step.
  destruct (items_to_check env name_query _) as [[|item items]|] eqn:E;
    try reflexivity.
  step.
  set (s1 := {| installed_content := installed_content s;
                disk := disk s;
                trace := _ |}).
  change (entry_kept other ct s1
            (snd (for_each (update_item env ct) (item :: items) s1))).
  apply (OpsFacts.keeps_for_each_in (entry_kept other ct)).
  - intros a. reflexivity.
  - apply EntryFacts.entry_trans.
  - intros [pid info] Hx. apply EntryFacts.entry_update_item_keeps.
    intros ->. apply (Hout _ eq_refl).
    apply (in_map fst _ _ Hx).
Qed.

Lemma update_leaves_unselected_entries_witness :
  Dict.get "gvQqBUqZ"
    (mods (installed_content
             (exec (update Sample.env (Some MOD) (Some "sod")) Sample.state)))
  = Some Sample.lithium_installed.
Proof.
  apply (update_leaves_unselected_entries Sample.env Sample.state MOD
           (Some "sod") "gvQqBUqZ").
  intros items H. vm_compute in H. injection H as <-.
  simpl. intros [H|[]]. discriminate H.
Defined.

(** ** uninstall, further *)

Module UninstallMore.



(** A run that settles on no entry only prints. *)
Lemma uninstall_unresolved (env : Env) (s : State) (q : string)
    (ct : ContentType) (selection : option Z) :
  (forall item,
      ~ resolves_to
          (find_matches env q (get_content_dict ct (installed_content s)))
          selection item) ->
  only_trace s (exec (uninstall env q ct selection) s)
  /\ writes (trace (exec (uninstall env q ct selection) s))
     = writes (trace s)
  /\ removals (trace (exec (uninstall env q ct selection) s))
     = removals (trace s).
Proof.
  intros Hnone. unfold uninstall, exec, only_trace. step.
  destruct (find_matches env q _) as [|[p1 i1] [|m2 ms]] eqn:E.
  - step. repeat split; traces.
  - exfalso. apply (Hnone (p1, i1)). left. reflexivity.
  - rewrite (TraceFacts.for_each_prints _ match_line) by reflexivity.
    destruct (TraceFacts.prints_only match_line
                (enumerate ((p1, i1) :: m2 :: ms) 1)) as (_ & Hw & Hr).
    assert (Hquiet :
      forall t : list Event,
        writes t = [] -> removals t = [] ->
        writes ((trace s ++ [EPrint MultipleMatchesFound])
                ++ map (fun x => EPrint (match_line x))
                     (enumerate ((p1, i1) :: m2 :: ms) 1) ++ t)
        = writes (trace s)
        /\ removals ((trace s ++ [EPrint MultipleMatchesFound])
                     ++ map (fun x => EPrint (match_line x))
                          (enumerate ((p1, i1) :: m2 :: ms) 1) ++ t)
           = removals (trace s)).
    { intros t Htw Htr.
      repeat rewrite TraceFacts.writes_app.
      repeat rewrite TraceFacts.removals_app.
      rewrite Hw, Hr, Htw, Htr. simpl. rewrite ?app_nil_r. split; reflexivity. }
    destruct selection as [k|].
    + destruct (_ && _)%bool eqn:Hrange.
      * destruct (nth_error _ _) as [[pid info]|] eqn:N.
        -- exfalso. apply (Hnone (pid, info)). right.
           apply andb_true_iff in Hrange. destruct Hrange as [H1 H2].
           apply Z.leb_le in H1. apply Z.leb_le in H2.
           split; [simpl; lia|]. exists k. repeat split; assumption.
        -- unfold with_trace. step.
           destruct (Hquiet [] eq_refl eq_refl) as [Hw' Hr'].
           rewrite app_nil_r in Hw', Hr'. repeat split; assumption.
      * unfold with_trace. step.
        destruct (Hquiet [] eq_refl eq_refl) as [Hw' Hr'].
        rewrite app_nil_r in Hw', Hr'. repeat split; assumption.
    + unfold with_trace. step.
      destruct (Hquiet [EPrint InvalidSelection] eq_refl eq_refl)
        as [Hw' Hr'].
      rewrite <- app_assoc. repeat split; assumption.
Qed.

End UninstallMore.

(** X9: when no entry matches the query, or several match and the answer
    at the prompt is not a number or not the number of a candidate (0
    cancels), [uninstall] only prints: the ledger and every file, the
    configuration file among them, are what they were, nothing is written and no deletion is
    attempted. *)
Theorem uninstall_without_settled_entry_changes_nothing
    (env : Env) (s : State) (name_query : string) (ct : ContentType)
    (selection : option Z) :
  (forall item,
      ~ resolves_to
          (find_matches env name_query
             (get_content_dict ct (installed_content s)))
          selection item) ->
  only_trace s (exec (uninstall env name_query ct selection) s)
  /\ writes (trace (exec (uninstall env name_query ct selection) s))
     = writes (trace s)
  /\ removals (trace (exec (uninstall env name_query ct selection) s))
     = removals (trace s).
Proof. apply UninstallMore.uninstall_unresolved. Qed.

Lemma uninstall_without_settled_entry_changes_nothing_witness :
  only_trace Sample.state
    (exec (uninstall Sample.env "i" MOD (Some 0%Z)) Sample.state)
  /\ only_trace Sample.state
       (exec (uninstall Sample.env "i" MOD None) Sample.state).
Proof.
  split.
  - apply (uninstall_without_settled_entry_changes_nothing
             Sample.env Sample.state "i" MOD (Some 0%Z)).
    intros item [H|(_ & k & [= <-] & Hr & _)]; [discriminate H|lia].
  - apply (uninstall_without_settled_entry_changes_nothing
             Sample.env Sample.state "i" MOD None).
    intros item [H|(_ & k & Hk & _)]; discriminate.
Defined.

(** X10: when [uninstall] has settled on an entry whose file exists and
    [os.remove] succeeds, the entry is taken out of its bucket, the
    configuration file holds the new ledger, that one file is the only
    deletion, and the files are what they were with that file gone and
    the configuration file written; so the file of the entry no longer
    exists, unless its name led to the configuration file, and every
    other file is what it was. *)
Theorem uninstall_removes_file_and_entry
    (env : Env) (s : State) (name_query : string) (ct : ContentType)
    (selection : option Z) (project_id : string) (info : Entry) :
  resolves_to
    (find_matches env name_query
       (get_content_dict ct (installed_content s)))
    selection (project_id, info) ->
  exists_at env (path_join env (get_content_path env ct) (filename info)) s
  = true ->
  os_remove env (path_join env (get_content_path env ct) (filename info))
  = None ->
  let file_path :=
    path_join env (get_content_path env ct) (filename info) in
  let l' :=
    set_content_dict ct
      (Dict.delitem project_id (get_content_dict ct (installed_content s)))
      (installed_content s) in
  let s' := exec (uninstall env name_query ct selection) s in
  installed_content s' = l'
  /\ in_sync env s'
  /\ disk s'
     = FS.write (config_loc env) (json_dump env l')
         (FS.remove (locate env file_path) (disk s))
  /\ (locate env file_path <> config_loc env ->
      exists_at env file_path s' = false)
  /\ (forall l,
         l <> locate env file_path -> l <> config_loc env ->
         FS.read l (disk s') = FS.read l (disk s))
  /\ removals (trace s') = removals (trace s) ++ [file_path].
Proof.
  intros Hres Hexists Hremove file_path l' s'. subst s' l' file_path.
  unfold exists_at in *.
  unfold exec. rewrite (UninstallFacts.uninstall_resolved _ _ _ _ _ _ _ Hres).
  unfold uninstall_entry, with_trace, in_sync, config_file.
  step. rewrite Hexists. step.
  rewrite Hremove. step.
  split; [reflexivity|]. split; [apply FSFacts.read_write_same|].
  split; [reflexivity|]. split; [|split].
  - intros Hloc. rewrite FSFacts.exists_write_other by exact Hloc.
    apply FSFacts.exists_remove_same.
  - intros l Hl Hc. rewrite FSFacts.read_write_other by exact Hc.
    apply FSFacts.read_remove_other. exact Hl.
  - repeat rewrite TraceFacts.removals_app.
    rewrite UninstallFacts.prompt_removals. simpl.
    rewrite ?app_nil_r. reflexivity.
Qed.

Lemma uninstall_removes_file_and_entry_witness :
  resourcepacks
    (installed_content
       (exec (uninstall Sample.env "FAITH" RESOURCE_PACK None) Sample.state))
  = []
  /\ exists_at Sample.env
       "/home/steve/.minecraft/resourcepacks/Faithful-32x.zip"
       (exec (uninstall Sample.env "FAITH" RESOURCE_PACK None) Sample.state)
     = false
  /\ map fst
       (disk (exec (uninstall Sample.env "FAITH" RESOURCE_PACK None)
                Sample.state))
     = [Sample.config;
        "/home/steve/.minecraft/mods/sodium-0.5.3.jar";
        "/home/steve/.minecraft/mods/lithium-0.12.1.jar"].
Proof.
  destruct (uninstall_removes_file_and_entry
              Sample.env Sample.state "FAITH" RESOURCE_PACK None
              "faithful" Sample.faithful_installed
              (or_introl eq_refl) eq_refl eq_refl)
    as (Hl & _ & Hd & Hgone & _).
  split; [rewrite Hl; reflexivity|].
  split; [apply Hgone; vm_compute; discriminate|].
  rewrite Hd. reflexivity.
Defined.


(** ** update, further *)

Module UpdateFacts.

Lemma update_target_some (env : Env) (pid : string) (info : Entry)
    (latest : Version) (f : File) :
  update_target env pid info = Some (latest, f) ->
  exists rest,
    http_versions env pid None = Ok (latest :: rest)
    /\ String.eqb (version_number latest) (version info) = false
    /\ primary_file (files latest) = Some f.
Proof.
  unfold update_target.
  destruct (http_versions env pid None) as [[|v vs]|]; try discriminate.
  destruct (String.eqb (version_number v) (version info)) eqn:Hv;
    [discriminate|].
  destruct (primary_file (files v)) as [g|] eqn:Hf; [|discriminate].
  intros [= -> ->]. exists vs. repeat split; assumption.
Qed.

End UpdateFacts.

(** X12: when the download that the step of [update] starts for an entry
    reports failure, the entry and the whole ledger in memory are what
    they were, no write of the configuration file and no deletion is
    attempted, and the step ends by reporting that the update failed. The
    files are what they were when the download failed before its
    destination was opened; otherwise the destination holds the bytes
    received. So ledger and configuration file are what they were unless
    the destination leads to the configuration file and was opened. *)
Theorem update_download_failure_leaves_entry
    (env : Env) (s : State) (ct : ContentType) (project_id : string)
    (info : Entry) (latest : Version) (f : File) (e : string)
    (written : option string) :
  update_target env project_id info = Some (latest, f) ->
  http_download env (file_url f) = DownloadFailed e written ->
  let destination :=
    path_join env (get_content_path env ct) (file_filename f) in
  let s' := exec (update_item env ct (project_id, info)) s in
  installed_content s' = installed_content s
  /\ disk s'
     = match written with
       | Some bytes => FS.write (locate env destination) bytes (disk s)
       | None => disk s
       end
  /\ (written = None \/ locate env destination <> config_loc env ->
      ledger_kept env s s')
  /\ writes (trace s') = writes (trace s)
  /\ removals (trace s') = removals (trace s)
  /\ trace s'
     = trace s
       ++ [EPrint (Checking (name info));
           EPrint (UpdateAvailable (version info) (version_number latest));
           EDownload (file_url f) destination;
           EPrint (ErrorDownloadingFile e);
           EPrint UpdateFailed].
Proof.
  intros Ht Hdl destination s'. subst destination s'.
  destruct (UpdateFacts.update_target_some _ _ _ _ _ Ht)
    as (rest & H1 & H2 & H3).
  unfold update_item, ledger_kept, config_file. step.
  change (versions_params None) with (@None string).
  rewrite H1, H2, H3, Hdl.
  destruct written as [bytes|]; step.
  - split; [reflexivity|]. split; [reflexivity|]. split.
    { intros [Hw|Hloc]; [discriminate|]. split; [reflexivity|].
      apply FSFacts.read_write_other. congruence. }
    repeat split; try traces. flat. reflexivity.
  - split; [reflexivity|]. split; [reflexivity|]. split.
    { intros _. split; reflexivity. }
    repeat split; try traces. flat. reflexivity.
Qed.

Lemma update_download_failure_leaves_entry_witness :
  ledger_kept Sample.env Sample.state
    (exec (update_item Sample.env MOD
             ("YL57xq9U",
              {| name := "Iris Shaders"; version := "1.6.4";
                 filename := "iris-1.6.4.jar";
                 installed_at := "2023-06-01T00:00:00Z" |}))
       Sample.state)
  /\ FS.read "/home/steve/.minecraft/mods/iris-1.7.0.jar"
       (disk (exec (update_item Sample.env MOD
                      ("YL57xq9U",
                       {| name := "Iris Shaders"; version := "1.6.4";
                          filename := "iris-1.6.4.jar";
                          installed_at := "2023-06-01T00:00:00Z" |}))
                Sample.state))
     = Some "PK".
Proof.
  destruct (update_download_failure_leaves_entry
              Sample.env Sample.state MOD "YL57xq9U"
              {| name := "Iris Shaders"; version := "1.6.4";
                 filename := "iris-1.6.4.jar";
                 installed_at := "2023-06-01T00:00:00Z" |}
              Sample.iris_170 Sample.iris_zip
              "Connection reset by peer" (Some "PK") eq_refl eq_refl)
    as (_ & Hd & Hkept & _).
  split.
  - apply Hkept. right. vm_compute. discriminate.
  - rewrite Hd. reflexivity.
Defined.

(** X13: when the versions of an entry cannot be fetched, or none comes
    back, or the latest carries the recorded label, or it has no file, the
    step of [update] for that entry only prints: the ledger and every
    file, the configuration file among them, are what they were and
    nothing is downloaded, written or deleted. *)
Theorem update_without_target_changes_nothing
    (env : Env) (s : State) (ct : ContentType) (project_id : string)
    (info : Entry) :
  update_target env project_id info = None ->
  only_trace s (exec (update_item env ct (project_id, info)) s)
  /\ downloads (trace (exec (update_item env ct (project_id, info)) s))
     = downloads (trace s)
  /\ writes (trace (exec (update_item env ct (project_id, info)) s))
     = writes (trace s)
  /\ removals (trace (exec (update_item env ct (project_id, info)) s))
     = removals (trace s).
Proof.
  unfold update_target, update_item, only_trace. step.
  change (versions_params None) with (@None string).
  destruct (http_versions env project_id None) as [[|v vs]|e]; step.
  - intros _. repeat split; traces.
  - destruct (String.eqb (version_number v) (version info)); step.
    + intros _. repeat split; traces.
    + destruct (primary_file (files v)); [discriminate|]. intros _. step.
      repeat split; traces.
  - intros _. repeat split; traces.
Qed.

Lemma update_without_target_changes_nothing_witness :
  only_trace Sample.state
    (exec (update_item Sample.env MOD ("optifine", Sample.optifine_installed))
       Sample.state).
Proof.
  destruct (update_without_target_changes_nothing
              Sample.env Sample.state MOD "optifine"
              Sample.optifine_installed eq_refl)
    as (H & _).
  exact H.
Defined.

(** X14: when the new file of an entry is downloaded to another path
    than the old one, as [pathlib] compares paths, and the old file is
    deleted without error, the entry keeps its display name and carries
    the new version label, file name and publish timestamp, the
    configuration file holds the new ledger, and the files are what they
    were with the new file written, the old one gone and the
    configuration file written, in that order. So when the two paths lead
    to different files, neither of them the configuration file, the old
    file no longer exists and the new one holds what was downloaded. *)
Theorem update_replaces_old_file
    (env : Env) (s : State) (ct : ContentType) (project_id : string)
    (info : Entry) (latest : Version) (f : File) (body : string) :
  update_target env project_id info = Some (latest, f) ->
  http_download env (file_url f) = Downloaded body ->
  path_key env (path_join env (get_content_path env ct) (filename info))
  <> path_key env
       (path_join env (get_content_path env ct) (file_filename f)) ->
  exists_at env (path_join env (get_content_path env ct) (filename info)) s
  = true ->
  os_remove env (path_join env (get_content_path env ct) (filename info))
  = None ->
  let old_path := path_join env (get_content_path env ct) (filename info) in
  let new_path :=
    path_join env (get_content_path env ct) (file_filename f) in
  let s' := exec (update_item env ct (project_id, info)) s in
  Dict.get project_id (get_content_dict ct (installed_content s'))
  = Some {| name := name info;
            version := version_number latest;
            filename := file_filename f;
            installed_at := date_published latest |}
  /\ in_sync env s'
  /\ disk s'
     = FS.write (config_loc env) (json_dump env (installed_content s'))
         (FS.remove (locate env old_path)
            (FS.write (locate env new_path) body (disk s)))
  /\ (locate env old_path <> config_loc env ->
      exists_at env old_path s' = false)
  /\ (locate env new_path <> locate env old_path ->
      exists_at env new_path s' = true)
  /\ (locate env new_path <> locate env old_path ->
      locate env new_path <> config_loc env ->
      FS.read (locate env new_path) (disk s') = Some body)
  /\ removals (trace s') = removals (trace s) ++ [old_path].
Proof.
  intros Ht Hdl Hkey Hexists Hremove old_path new_path s'.
  subst s' old_path new_path.
  destruct (UpdateFacts.update_target_some _ _ _ _ _ Ht)
    as (rest & H1 & H2 & H3).
  apply String.eqb_neq in Hkey.
  unfold exists_at in *.
  unfold update_item, in_sync, config_file. step.
  change (versions_params None) with (@None string).
  rewrite H1, H2, H3, Hdl. step. rewrite Hkey.
  rewrite (FSFacts.exists_write_grows _
             (locate env (path_join env (get_content_path env ct)
                            (file_filename f))) body _ Hexists).
  step. rewrite Hremove. step.
  split; [rewrite LedgerFacts.get_set_same; apply LedgerFacts.get_setitem|].
  split; [apply FSFacts.read_write_same|].
  split; [reflexivity|].
  split; [|split; [|split]].
  - intros Hc. rewrite FSFacts.exists_write_other by exact Hc.
    apply FSFacts.exists_remove_same.
  - intros Hloc. apply FSFacts.exists_write_grows.
    rewrite FSFacts.exists_remove_other by exact Hloc.
    apply FSFacts.exists_write_same.
  - intros Hloc Hc. rewrite FSFacts.read_write_other by exact Hc.
    rewrite FSFacts.read_remove_other by exact Hloc.
    apply FSFacts.read_write_same.
  - traces.
Qed.

Lemma update_replaces_old_file_witness :
  map fst
    (disk (exec (update_item Sample.env RESOURCE_PACK
                   ("AANobbMI", Sample.sodium_installed))
             {| installed_content := Sample.ledger;
                disk :=
                  [("/home/steve/.minecraft/resourcepacks/sodium-0.5.3.jar",
                    "sodium 0.5.3")];
                trace := [] |}))
  = [Sample.config;
     "/home/steve/.minecraft/resourcepacks/sodium-0.5.8.jar"]
  /\ exists_at Sample.env
       "/home/steve/.minecraft/resourcepacks/sodium-0.5.3.jar"
       (exec (update_item Sample.env RESOURCE_PACK
                ("AANobbMI", Sample.sodium_installed))
          {| installed_content := Sample.ledger;
             disk :=
               [("/home/steve/.minecraft/resourcepacks/sodium-0.5.3.jar",
                 "sodium 0.5.3")];
             trace := [] |})
     = false.
Proof.
  destruct (update_replaces_old_file
              Sample.env
              {| installed_content := Sample.ledger;
                 disk :=
                   [("/home/steve/.minecraft/resourcepacks/sodium-0.5.3.jar",
                     "sodium 0.5.3")];
                 trace := [] |}
              RESOURCE_PACK "AANobbMI" Sample.sodium_installed
              Sample.sodium_058 Sample.sodium_jar
              "bytes of https://cdn.example/sodium-0.5.8.jar"
              eq_refl eq_refl ltac:(vm_compute; discriminate)
              eq_refl eq_refl)
    as (_ & _ & Hd & Hold & _).
  split.
  - rewrite Hd. reflexivity.
  - apply Hold. vm_compute. discriminate.
Defined.

(** X15: when the new version of an entry comes under the recorded file
    name, the step of [update] downloads over the file and attempts no
    deletion; the file exists and the entry carries the new version
    label and publish timestamp. *)
Theorem update_same_file_name_deletes_nothing
    (env : Env) (s : State) (ct : ContentType) (project_id : string)
    (info : Entry) (latest : Version) (f : File) (body : string) :
  update_target env project_id info = Some (latest, f) ->
  http_download env (file_url f) = Downloaded body ->
  file_filename f = filename info ->
  Dict.get project_id
    (get_content_dict ct
       (installed_content (exec (update_item env ct (project_id, info)) s)))
  = Some {| name := name info;
            version := version_number latest;
            filename := filename info;
            installed_at := date_published latest |}
  /\ in_sync env (exec (update_item env ct (project_id, info)) s)
  /\ exists_at env
       (path_join env (get_content_path env ct) (filename info))
       (exec (update_item env ct (project_id, info)) s) = true
  /\ disk (exec (update_item env ct (project_id, info)) s)
     = FS.write (config_loc env)
         (json_dump env
            (installed_content
               (exec (update_item env ct (project_id, info)) s)))
         (FS.write
            (locate env
               (path_join env (get_content_path env ct) (filename info)))
            body (disk s))
  /\ removals (trace (exec (update_item env ct (project_id, info)) s))
     = removals (trace s).
Proof.
  intros Ht Hdl Hname.
  destruct (UpdateFacts.update_target_some _ _ _ _ _ Ht)
    as (rest & H1 & H2 & H3).
  unfold update_item, in_sync, config_file, exists_at. step.
  change (versions_params None) with (@None string).
  rewrite H1, H2, H3, Hdl, Hname. step.
  rewrite String.eqb_refl. step.
  split; [rewrite LedgerFacts.get_set_same; apply LedgerFacts.get_setitem|].
  split; [apply FSFacts.read_write_same|].
  split; [apply FSFacts.exists_write_grows, FSFacts.exists_write_same|].
  split; [reflexivity|traces].
Qed.

Lemma update_same_file_name_deletes_nothing_witness :
  removals
    (trace (exec (update_item Sample.env MOD
                    ("AANobbMI",
                     {| name := "Sodium"; version := "0.5.8-beta";
                        filename := "sodium-0.5.8.jar";
                        installed_at := "2024-01-20T00:00:00Z" |}))
              Sample.state))
  = [].
Proof.
  destruct (update_same_file_name_deletes_nothing
              Sample.env Sample.state MOD "AANobbMI"
              {| name := "Sodium"; version := "0.5.8-beta";
                 filename := "sodium-0.5.8.jar";
                 installed_at := "2024-01-20T00:00:00Z" |}
              Sample.sodium_058 Sample.sodium_jar
              "bytes of https://cdn.example/sodium-0.5.8.jar"
              eq_refl eq_refl eq_refl)
    as (_ & _ & _ & _ & Hr).
  exact Hr.
Defined.

(** ** install from a first start, and the files *)

(** X16: on a first start (no configuration file) or after one that is
    not JSON, [__init__] ends with the empty ledger in memory, and a
    successful [install] then leaves a ledger with that single entry, in
    the bucket of the content type, and writes it over whatever the
    configuration file held. *)
Theorem first_install_after_missing_or_corrupt_file
    (env : Env) (s : State) (project_id : string) (ct : ContentType)
    (gv : option string) (project : Project) (version : Version) (f : File)
    (body : string) :
  (config_file env s = None
   \/ exists c, config_file env s = Some c
                /\ json_load env c = JSONDecodeError) ->
  install_target env project_id gv = Some (project, version, f) ->
  http_download env (file_url f) = Downloaded body ->
  let l' :=
    set_content_dict ct
      [(project_id,
        {| name := title project;
           version := version_number version;
           filename := file_filename f;
           installed_at := date_published version |})]
      empty_ledger in
  fst (init env s) = Ready
  /\ installed_content
       (exec (install env project_id ct gv) (exec (init env) s))
     = l'
  /\ config_file env
       (exec (install env project_id ct gv) (exec (init env) s))
     = Some (json_dump env l').
Proof.
  intros Hfile Ht Hdl l'.
  rewrite (InstallFacts.install_success env _ _ ct _ _ _ _ body Ht Hdl).
  cbn [installed_content]. unfold config_file. cbn [disk].
  destruct (LoadFacts.defaults_when_missing_or_not_json env s Hfile)
    as (_ & _ & _ & _ & Hready & Hinit).
  rewrite Hinit. unfold l'.
  split; [exact Hready|].
  split; [destruct ct; reflexivity|].
  rewrite FSFacts.read_write_same. destruct ct; reflexivity.
Qed.

Lemma first_install_after_missing_or_corrupt_file_witness :
  installed_content
    (exec (install Sample.env "AANobbMI" MOD None)
       (exec (init Sample.env) Sample.corrupt))
  = {| mods := [("AANobbMI",
                 {| name := "Sodium"; version := "0.5.8";
                    filename := "sodium-0.5.8.jar";
                    installed_at := "2024-02-01T10:00:00Z" |})];
       resourcepacks := [];
       shaderpacks := [] |}.
Proof.
  destruct (first_install_after_missing_or_corrupt_file
              Sample.env Sample.corrupt "AANobbMI" MOD None
              {| title := "Sodium" |} Sample.sodium_058 Sample.sodium_jar
              "bytes of https://cdn.example/sodium-0.5.8.jar"
              (or_intror (ex_intro _ "{ mods: " (conj eq_refl eq_refl)))
              eq_refl eq_refl)
    as (_ & Hl & _).
  exact Hl.
Defined.

(** X17: [install] never deletes: whether it succeeds or fails, every
    file that existed still exists and no deletion is attempted. *)
Theorem install_never_deletes
    (env : Env) (s : State) (project_id : string) (ct : ContentType)
    (gv : option string) :
  disk_grows s (exec (install env project_id ct gv) s)
  /\ removals (trace (exec (install env project_id ct gv) s))
     = removals (trace s).
Proof.
  unfold install, disk_grows. run; (split; [|traces]); intros p Hp;
    repeat apply FSFacts.exists_write_grows; exact Hp.
Qed.

(** ** search *)

(** X18: when the registry answers a search with hits and the number
    typed at the prompt is the number of a hit, [search] does what
    [install] does for the project id of that hit, with the content type
    and the game version of the search. *)
Theorem search_installs_the_selected_hit
    (http_search : ModrinthAPI.SearchParams -> Response (list Hit))
    (env : Env) (s : State) (query : string) (ct : ContentType)
    (gv : option string) (hits : list Hit) (k : Z) (selected : Hit) :
  http_search
    (ModrinthAPI.search_params query ct (game_versions_of gv) 20)
  = Ok hits ->
  (1 <= k <= Z.of_nat (List.length hits))%Z ->
  nth_error hits (Z.to_nat (k - 1)) = Some selected ->
  exec (search http_search env query ct gv (Some k)) s
  = exec (install env (hit_project_id selected) ct gv) s.
Proof.
  intros Hhits Hk Hnth.
  unfold search, api_search, exec. rewrite Hhits.
  destruct hits as [|h hs]; [destruct (Z.to_nat (k - 1)); discriminate|].
  assert (Hrange :
    ((1 <=? k)%Z && (k <=? Z.of_nat (List.length (h :: hs)))%Z)%bool = true).
  { apply andb_true_iff. split; apply Z.leb_le; lia. }
  cbv zeta. rewrite Hrange, Hnth.
  unfold bind at 1.
  destruct (install env (hit_project_id selected) ct gv s) as [[] s1].
  reflexivity.
Qed.

Lemma search_installs_the_selected_hit_witness :
  mods
    (installed_content
       (exec (search
                (fun _ =>
                   Ok [ {| hit_project_id := "gvQqBUqZ";
                           hit_title := "Lithium";
                           hit_description := Some "Game logic optimisations";
                           hit_downloads := Some 1000%Z;
                           hit_date_modified := Some "2024-01-15T08:30:00Z" |};
                        {| hit_project_id := "AANobbMI";
                           hit_title := "Sodium";
                           hit_description := None;
                           hit_downloads := None;
                           hit_date_modified := None |} ])
                Sample.env "optimisation" MOD None (Some 2%Z))
          Sample.fresh))
  = [("AANobbMI",
      {| name := "Sodium"; version := "0.5.8";
         filename := "sodium-0.5.8.jar";
         installed_at := "2024-02-01T10:00:00Z" |})].
Proof.
  rewrite (search_installs_the_selected_hit
             (fun _ =>
                Ok [ {| hit_project_id := "gvQqBUqZ";
                        hit_title := "Lithium";
                        hit_description := Some "Game logic optimisations";
                        hit_downloads := Some 1000%Z;
                        hit_date_modified := Some "2024-01-15T08:30:00Z" |};
                     {| hit_project_id := "AANobbMI";
                        hit_title := "Sodium";
                        hit_description := None;
                        hit_downloads := None;
                        hit_date_modified := None |} ])
             Sample.env Sample.fresh "optimisation" MOD None _ 2%Z
             {| hit_project_id := "AANobbMI";
                hit_title := "Sodium";
                hit_description := None;
                hit_downloads := None;
                hit_date_modified := None |}
             eq_refl ltac:(simpl; lia) eq_refl).
  reflexivity.
Defined.

(** X19: when the search fails or finds nothing, or the answer at the
    prompt is not a number, or it is 0 or any number that is not the
    number of a hit, [search] installs nothing: the state is exactly what
    it was. *)
Theorem search_without_choice_changes_nothing
    (http_search : ModrinthAPI.SearchParams -> Response (list Hit))
    (env : Env) (s : State) (query : string) (ct : ContentType)
    (gv : option string) (selection : option Z) :
  (snd (api_search http_search query ct (game_versions_of gv) 20) = []
   \/ selection = None
   \/ exists k,
        selection = Some k
        /\ (k < 1
            \/ Z.of_nat
                 (List.length
                    (snd (api_search http_search query ct
                            (game_versions_of gv) 20))) < k)%Z) ->
  exec (search http_search env query ct gv selection) s = s.
Proof.
  unfold search. cbv zeta.
  destruct (api_search http_search query ct (game_versions_of gv) 20)
    as [errors hits].
  cbn [snd]. intros H.
  destruct hits as [|h hs]; [reflexivity|].
  destruct H as [H|[->|(k & -> & Hk)]]; [discriminate|reflexivity|].
  assert (Hrange :
    ((1 <=? k)%Z && (k <=? Z.of_nat (List.length (h :: hs)))%Z)%bool = false).
  { apply andb_false_iff.
    destruct Hk as [Hk|Hk]; [left|right]; apply Z.leb_gt; exact Hk. }
  rewrite Hrange. reflexivity.
Qed.

Lemma search_without_choice_changes_nothing_witness :
  exec (search (fun _ => RequestException "timed out")
          Sample.env "sodium" MOD None (Some 1%Z)) Sample.state
  = Sample.state.
Proof.
  apply (search_without_choice_changes_nothing
           (fun _ => RequestException "timed out")
           Sample.env Sample.state "sodium" MOD None (Some 1%Z)).
  left. reflexivity.
Defined.

Module SliceFacts.

Lemma length_append (a b : string) :
  String.length (a ++ b) = String.length a + String.length b.
Proof. induction a as [|x a IH]; simpl; [reflexivity|rewrite IH; reflexivity]. Qed.

Lemma length_slice_to (n : nat) (s : string) :
  String.length (slice_to n s) = Nat.min n (String.length s).
Proof.
  revert s. induction n as [|n IH]; intros [|c s]; simpl; try reflexivity.
  rewrite IH. reflexivity.
Qed.

Lemma slice_to_prefix (n : nat) (s : string) :
  exists rest : string, s = (slice_to n s ++ rest)%string.
Proof.
  revert s. induction n as [|n IH]; intros [|c s]; simpl.
  - exists EmptyString. reflexivity.
  - exists (String c s). reflexivity.
  - exists EmptyString. reflexivity.
  - destruct (IH s) as [rest Hrest]. exists rest. rewrite <- Hrest. reflexivity.
Qed.

Lemma slice_to_all (n : nat) (s : string) :
  String.length s <= n -> slice_to n s = s.
Proof.
  revert s. induction n as [|n IH]; intros [|c s]; simpl; intros H;
    try reflexivity; try lia.
  rewrite IH by lia. reflexivity.
Qed.

End SliceFacts.

(** X20: the description shown for a hit is never longer than 83
    characters: a description of at most 80 characters is shown as it is,
    a longer one is cut to its first 80 characters followed by three
    dots; a hit without description shows an empty line. *)
Theorem shown_description_is_bounded (item : Hit) :
  String.length (shown_description item) <= 83
  /\ (String.length (description_or_empty item) <= 80 ->
      shown_description item = description_or_empty item)
  /\ (80 < String.length (description_or_empty item) ->
      exists head rest : string,
        String.length head = 80
        /\ description_or_empty item = (head ++ rest)%string
        /\ shown_description item = (head ++ "...")%string)
  /\ (hit_description item = None -> shown_description item = "").
Proof.
  unfold shown_description.
  destruct (Nat.ltb_spec 80 (String.length (description_or_empty item)))
    as [Hlong|Hshort].
  - repeat split.
    + rewrite SliceFacts.length_append, SliceFacts.length_slice_to.
      change (String.length "...") with 3. lia.
    + intros H. lia.
    + intros _. destruct (SliceFacts.slice_to_prefix 80
                            (description_or_empty item)) as [rest Hrest].
      exists (slice_to 80 (description_or_empty item)), rest.
      repeat split; [|exact Hrest].
      rewrite SliceFacts.length_slice_to. lia.
    + intros Hnone. unfold description_or_empty in Hlong.
      rewrite Hnone in Hlong. simpl in Hlong. lia.
  - repeat split.
    + lia.
    + intros H. lia.
    + intros Hnone. unfold description_or_empty. rewrite Hnone. reflexivity.
Qed.

(** ** Directories, content types and the search request *)

(** X22: the value of a content type reads back as that content type, a
    string that reads as a content type is its value, and the strings
    accepted for [--type] are exactly those that read as one, so the
    conversion of an accepted [--type] never fails. *)
Theorem content_type_value_round_trip :
  (forall ct, ContentType_of_value (value ct) = Some ct)
  /\ (forall v ct, ContentType_of_value v = Some ct -> value ct = v)
  /\ (forall v,
         In v type_choices <-> exists ct, ContentType_of_value v = Some ct).
Proof.
  assert (Hback : forall v ct, ContentType_of_value v = Some ct -> value ct = v).
  { intros v ct. unfold ContentType_of_value, all_content_types.
    cbn [find value].
    destruct (String.eqb_spec "mod" v) as [<-|_]; [intros [= <-]; reflexivity|].
    destruct (String.eqb_spec "resourcepack" v) as [<-|_];
      [intros [= <-]; reflexivity|].
    destruct (String.eqb_spec "shader" v) as [<-|_];
      [intros [= <-]; reflexivity|intros [=]]. }
  split; [intros []; reflexivity|]. split; [exact Hback|].
  intros v. split.
  - simpl. intros [<-|[<-|[<-|[]]]];
      [exists MOD|exists RESOURCE_PACK|exists SHADER_PACK]; reflexivity.
  - intros [ct Hct]. rewrite <- (Hback v ct Hct).
    destruct ct; simpl; auto.
Qed.

(** X23: the request of a search carries no facet at all exactly when the
    content type is the shader pack and no game version is given; for a
    mod or a resource pack the facets are the project type first, then
    the game versions when some are given. *)
Theorem search_request_facets
    (query : string) (ct : ContentType) (gv : option (list string))
    (limit : Z) :
  (ModrinthAPI.param_facets (ModrinthAPI.search_params query ct gv limit)
   = None
   <-> ct = SHADER_PACK /\ (gv = None \/ gv = Some []))
  /\ (ct <> SHADER_PACK ->
      ModrinthAPI.sent_facets (ModrinthAPI.search_params query ct gv limit)
      = ModrinthAPI.project_type_facet ct
        :: match gv with
           | Some (v :: vs) =>
               [map (fun v => ("versions:" ++ v)%string) (v :: vs)]
           | _ => []
           end)
  /\ ModrinthAPI.param_query (ModrinthAPI.search_params query ct gv limit)
     = query
  /\ ModrinthAPI.param_limit (ModrinthAPI.search_params query ct gv limit)
     = limit.
Proof.
  split; [|split; [|split; reflexivity]].
  - destruct ct, gv as [[|v vs]|]; simpl; split;
      try discriminate; try tauto;
      intros (H1 & [H2|H2]); discriminate.
  - intros Hct. destruct ct; [| |congruence];
      destruct gv as [[|v vs]|]; reflexivity.
Qed.

Module LowerFacts.

Lemma lower_ascii_idem (c : ascii) :
  Str.lower_ascii (Str.lower_ascii c) = Str.lower_ascii c.
Proof. destruct c as [[] [] [] [] [] [] [] []]; reflexivity. Qed.

Lemma lower_idem (s : string) : Str.lower (Str.lower s) = Str.lower s.
Proof.
  induction s as [|c s IH]; simpl; [reflexivity|].
  rewrite IH, lower_ascii_idem. reflexivity.
Qed.

Lemma lower_ascii_below_128 (c : ascii) :
  (nat_of_ascii c <? 128)%nat = true ->
  (nat_of_ascii (Str.lower_ascii c) <? 128)%nat = true.
Proof. destruct c as [[] [] [] [] [] [] [] []]; intros H; exact H || reflexivity. Qed.

Lemma lower_is_ascii (s : string) :
  Str.is_ascii s = true -> Str.is_ascii (Str.lower s) = true.
Proof.
  induction s as [|c s IH]; simpl; [reflexivity|].
  intros H. apply andb_true_iff in H. destruct H as [Hc Hs].
  apply andb_true_iff. split; [apply lower_ascii_below_128; exact Hc|].
  apply IH. exact Hs.
Qed.

End LowerFacts.

(** X24: the default installation directory is one of three places
    reached from the home directory: [AppData], [Roaming], [.minecraft]
    when the lowercased platform name is "windows", [Library],
    [Application Support], [minecraft] when it is "darwin", and
    [.minecraft] otherwise; as far as [str.lower] turns A to Z into a to
    z, the platform name is compared without regard to case. On a POSIX
    platform these are the three paths under the home directory. *)
Theorem default_path_is_under_home (env : Env) (system : string) (home : Path) :
  In (get_default_minecraft_path env system home)
    [path_join env (path_join env (path_join env home "AppData") "Roaming")
       ".minecraft";
     path_join env
       (path_join env (path_join env home "Library") "Application Support")
       "minecraft";
     path_join env home ".minecraft"]
  /\ (str_lower env system = "windows" ->
      get_default_minecraft_path env system home
      = path_join env (path_join env (path_join env home "AppData") "Roaming")
          ".minecraft")
  /\ (str_lower env system = "darwin" ->
      get_default_minecraft_path env system home
      = path_join env
          (path_join env (path_join env home "Library") "Application Support")
          "minecraft")
  /\ (str_lower env system <> "windows" ->
      str_lower env system <> "darwin" ->
      get_default_minecraft_path env system home
      = path_join env home ".minecraft")
  /\ (folds_ascii (str_lower env) ->
      Str.is_ascii system = true ->
      get_default_minecraft_path env (Str.lower system) home
      = get_default_minecraft_path env system home)
  /\ get_default_minecraft_path Sample.env "Windows" "/home/steve"
     = "/home/steve/AppData/Roaming/.minecraft"
  /\ get_default_minecraft_path Sample.env "Darwin" "/home/steve"
     = "/home/steve/Library/Application Support/minecraft"
  /\ get_default_minecraft_path Sample.env "Linux" "/home/steve"
     = "/home/steve/.minecraft".
Proof.
  unfold get_default_minecraft_path. cbv zeta.
  split; [|split; [|split; [|split; [|split]]]].
  - destruct (String.eqb (str_lower env system) "windows");
      [|destruct (String.eqb (str_lower env system) "darwin")];
      simpl; auto.
  - intros ->. reflexivity.
  - intros ->. reflexivity.
  - intros Hw Hd. apply String.eqb_neq in Hw. apply String.eqb_neq in Hd.
    rewrite Hw, Hd. reflexivity.
  - intros Hfold Hascii.
    rewrite (Hfold _ (LowerFacts.lower_is_ascii system Hascii)).
    rewrite (Hfold _ Hascii), LowerFacts.lower_idem. reflexivity.
  - repeat split.
Qed.

(** ** list *)

Module ListFacts.

Lemma In_setitem {V : Type} (k : string) (v : V) (d : Dict.t V) :
  In (k, v) (Dict.setitem k v d).
Proof.
  induction d as [|[k0 v0] d IH]; simpl.
  - left. reflexivity.
  - destruct (String.eqb k0 k); [left; reflexivity|right; exact IH].
Qed.

End ListFacts.

(** X25: what [list] shows for a content type is not changed by an
    [install], an [uninstall] or an [update] on another content type. *)
Theorem listing_unchanged_by_other_content_types
    (env : Env) (s : State) (ct ct' : ContentType) :
  ct' <> ct ->
  (forall project_id gv,
      list_installed ct'
        (installed_content (exec (install env project_id ct gv) s))
      = list_installed ct' (installed_content s))
  /\ (forall name_query selection,
         list_installed ct'
           (installed_content (exec (uninstall env name_query ct selection) s))
         = list_installed ct' (installed_content s))
  /\ (forall name_query,
         list_installed ct'
           (installed_content (exec (update env (Some ct) name_query) s))
         = list_installed ct' (installed_content s)).
Proof.
  intros Hne. unfold list_installed, exec. split; [|split].
  - intros pid gv.
    rewrite (FrameFacts.install_keeps env pid ct gv s ct' Hne). reflexivity.
  - intros q sel.
    rewrite (FrameFacts.uninstall_keeps env q ct sel s ct' Hne). reflexivity.
  - intros q. unfold update.
    rewrite (FrameFacts.update_type_keeps env ct q s ct' Hne). reflexivity.
Qed.

Lemma listing_unchanged_by_other_content_types_witness :
  list_installed RESOURCE_PACK
    (installed_content
       (exec (install Sample.env "AANobbMI" MOD None) Sample.state))
  = [InstalledHeader RESOURCE_PACK; ColumnsHeader;
     InstalledLine "Faithful 32x" "1.20" "2023-09-09"].
Proof.
  destruct (listing_unchanged_by_other_content_types
              Sample.env Sample.state MOD RESOURCE_PACK ltac:(discriminate))
    as (Hin & _).
  rewrite Hin. reflexivity.
Defined.

(** X26: after a successful [install], [list] for the content type shows
    a line for the project, with its title, the version label and the
    first ten characters of the publish timestamp, and does not say that
    nothing is installed. *)
Theorem listing_shows_installed_project
    (env : Env) (s : State) (project_id : string) (ct : ContentType)
    (gv : option string) (project : Project) (ver : Version) (f : File)
    (body : string) :
  install_target env project_id gv = Some (project, ver, f) ->
  http_download env (file_url f) = Downloaded body ->
  In (InstalledLine (title project) (version_number ver)
        (slice_to 10 (date_published ver)))
     (list_installed ct
        (installed_content (exec (install env project_id ct gv) s)))
  /\ ~ In (NoneInstalled ct)
         (list_installed ct
            (installed_content (exec (install env project_id ct gv) s))).
Proof.
  intros Ht Hdl.
  rewrite (InstallFacts.install_success env s _ ct _ _ _ _ body Ht Hdl).
  cbn [installed_content]. unfold list_installed.
  rewrite LedgerFacts.get_set_same. unfold Dict.items.
  set (e := {| name := title project;
               version := version_number ver;
               filename := file_filename f;
               installed_at := date_published ver |}).
  assert (Hin := ListFacts.In_setitem project_id e
                   (get_content_dict ct (installed_content s))).
  destruct (Dict.setitem project_id e _) as [|x xs]; [destruct Hin|].
  split.
  - right. right.
    apply (in_map (fun '(_, info) =>
                     InstalledLine (name info) (version info)
                       (slice_to 10 (installed_at info))) _ _ Hin).
  - intros [H|[H|H]]; try discriminate.
    apply in_map_iff in H. destruct H as ([k i] & H & _). discriminate.
Qed.

Lemma listing_shows_installed_project_witness :
  In (InstalledLine "Sodium" "0.5.8" "2024-02-01")
    (list_installed MOD
       (installed_content
          (exec (install Sample.env "AANobbMI" MOD None) Sample.fresh))).
Proof.
  destruct (listing_shows_installed_project
              Sample.env Sample.fresh "AANobbMI" MOD None
              {| title := "Sodium" |} Sample.sodium_058 Sample.sodium_jar
              "bytes of https://cdn.example/sodium-0.5.8.jar"
              eq_refl eq_refl)
    as (Hin & _).
  exact Hin.
Defined.
